(** * iex_server.py: a shallow embedding of the real-time price stream

    The script polls an HTTP endpoint on a timer, turns the CSV answer into
    one (time, display_time, price) triple and streams it into a bokeh
    [ColumnDataSource] with a rollover of 3600 entries; a text box and a
    button let the user change the ticker, which clears the source.

    The Python functions [init], [update_ticker], [get_last_price] and
    [update_price] are embedded as computations over an explicit program
    state.  What they call in pandas, dateutil, pytz, requests and bokeh is
    modelled next to them: Python slices, the proleptic Gregorian calendar,
    [Series.to_string], [dateutil.parser.parse] on the ISO form that pandas
    prints, [float(Series)], and [ColumnDataSource.stream]. *)

From Stdlib Require Import ZArith Lia List Ascii String.
From Stdlib Require Import Floats.PrimFloat Uint63.
From stdpp Require Import base option list gmap strings pretty.

Import ListNotations.
Local Open Scope string_scope.
Local Open Scope Z_scope.

(** lia is used on goals with division and remainder by constants *)
Ltac Zify.zify_post_hook ::= Z.to_euclidean_division_equations.

(* ===================================================================== *)
(** ** Python: exceptions, results, slices *)
(* ===================================================================== *)

(** The exceptions the script can raise (none is caught in the source). *)
Inductive exn : Type :=
  | ConnectionError           (* requests.get *)
  | ParserError               (* pd.read_csv, also EmptyDataError *)
  | KeyError (k : string)     (* prices_df["time"], prices_df["price"] *)
  | OutOfBoundsDatetime       (* pd.to_datetime *)
  | DateParseError            (* dateutil.parser.parse *)
  | TypeError                 (* float(series) with len(series) != 1 *)
  | ValueError                (* float(x), stream validation *)
  | AttributeError.           (* the .dt accessor on a non-datetime column *)

Inductive result (A : Type) : Type :=
  | Ok (a : A)
  | Raise (e : exn).
Arguments Ok {A} a.
Arguments Raise {A} e.

Definition result_bind {A B} (r : result A) (f : A -> result B) : result B :=
  match r with Ok a => f a | Raise e => Raise e end.

(** every element is a value, or the first exception *)
Fixpoint result_all {A} (l : list (result A)) : result (list A) :=
  match l with
  | [] => Ok []
  | r :: rs =>
      result_bind r (fun a =>
      result_bind (result_all rs) (fun l' => Ok (a :: l')))
  end.

Module Py.

(** Python normalises the stop index of a slice [L[:stop]]: a negative
    index counts from the end, and the result is clamped to [0, len]. *)
Definition slice_stop (len : nat) (stop : Z) : nat :=
  let i := if stop <? 0 then stop + Z.of_nat len else stop in
  Z.to_nat (Z.min (Z.max i 0) (Z.of_nat len)).

(** [del L[:stop]] *)
Definition del_prefix {A} (L : list A) (stop : Z) : list A :=
  drop (slice_stop (length L) stop) L.

(** [L[-n:]] for [n > 0]: the last [n] elements of a list *)
Definition lastn {A} (n : nat) (L : list A) : list A :=
  drop (length L - n) L.

(** [s[1:]] on a str; the empty string stays empty *)
Definition str_from_1 (s : string) : string :=
  match s with
  | EmptyString => EmptyString
  | String _ r => r
  end.

End Py.

(* ===================================================================== *)
(** ** The proleptic Gregorian calendar

    [datetime], pandas' [Timestamp] and [strftime] all break an instant
    into calendar fields with this calendar.  Days are counted from
    1970-01-01; the conversion works on 400-year eras that start on the
    first of March, so that the leap day is the last day of a year. *)
(* ===================================================================== *)

Module Calendar.

Record date : Type := mkdate { year : Z; month : Z; day : Z }.

Definition is_leap (y : Z) : bool :=
  (y mod 4 =? 0) && (negb (y mod 100 =? 0) || (y mod 400 =? 0)).

Definition days_in_month (y m : Z) : Z :=
  if m =? 2 then (if is_leap y then 29 else 28)
  else if (m =? 4) || (m =? 6) || (m =? 9) || (m =? 11) then 30
  else 31.

(** the day of the era (0 .. 146096) as year of era, month and day *)
Definition yoe_of_doe (doe : Z) : Z :=
  (doe - doe / 1460 + doe / 36524 - doe / 146096) / 365.

Definition doy_of_doe (doe : Z) : Z :=
  let yoe := yoe_of_doe doe in
  doe - (365 * yoe + yoe / 4 - yoe / 100).

Definition civil_from_days (z : Z) : date :=
  let z := z + 719468 in
  let era := z / 146097 in
  let doe := z - era * 146097 in
  let yoe := yoe_of_doe doe in
  let doy := doy_of_doe doe in
  let mp := (5 * doy + 2) / 153 in
  let d := doy - (153 * mp + 2) / 5 + 1 in
  let m := if mp <? 10 then mp + 3 else mp - 9 in
  let y := yoe + era * 400 in
  mkdate (if m <=? 2 then y + 1 else y) m d.

Definition days_from_civil (dt : date) : Z :=
  let y := if month dt <=? 2 then year dt - 1 else year dt in
  let era := y / 400 in
  let yoe := y - era * 400 in
  let mp := if 2 <? month dt then month dt - 3 else month dt + 9 in
  let doy := (153 * mp + 2) / 5 + day dt - 1 in
  let doe := yoe * 365 + yoe / 4 - yoe / 100 + doy in
  era * 146097 + doe - 719468.

(** what the [datetime] constructor accepts as a date *)
Definition valid_date (dt : date) : bool :=
  (1 <=? year dt) && (year dt <=? 9999) &&
  (1 <=? month dt) && (month dt <=? 12) &&
  (1 <=? day dt) && (day dt <=? days_in_month (year dt) (month dt)).

End Calendar.

(* ===================================================================== *)
(** ** datetime values *)
(* ===================================================================== *)

Module Datetime.
Import Calendar.

(** The three kinds of [tzinfo] the script meets: [dateutil.tz.tzutc()],
    [dateutil.tz.tzoffset(None, seconds)], and the pytz zone an
    [astimezone] call returns, with the offset in force at that instant. *)
Inductive tzinfo : Type :=
  | tzutc
  | tzoffset (seconds : Z)
  | pytz_zone (name : string) (seconds : Z).

Record datetime : Type := mkdatetime {
  dt_date : date;
  hour : Z;
  minute : Z;
  second : Z;
  microsecond : Z;
  tz : option tzinfo          (* None: a naive datetime *)
}.

Definition tz_seconds (t : tzinfo) : Z :=
  match t with
  | tzutc => 0
  | tzoffset s => s
  | pytz_zone _ s => s
  end.

(** [dt.utcoffset()] in seconds; None for a naive datetime *)
Definition utcoffset (dt : datetime) : option Z := tz_seconds <$> tz dt.

Definition is_aware (dt : datetime) : bool :=
  match tz dt with Some _ => true | None => false end.

(** seconds of the wall clock reading since 1970-01-01 00:00:00 *)
Definition wall_seconds (dt : datetime) : Z :=
  days_from_civil (dt_date dt) * 86400
  + hour dt * 3600 + minute dt * 60 + second dt.

(** The instant an aware datetime denotes, in microseconds since the
    epoch, 1970-01-01 00:00:00 UTC. *)
Definition instant_us (dt : datetime) : option Z :=
  off ← utcoffset dt;
  Some ((wall_seconds dt - off) * 1000000 + microsecond dt).

(** The wall clock reading at [us] microseconds since the epoch in a zone
    that is [off] seconds east of UTC. *)
Definition fields_of_us (us off : Z) (t : option tzinfo) : datetime :=
  let lus := us + off * 1000000 in
  let secs := lus / 1000000 in
  let sod := secs mod 86400 in
  mkdatetime (civil_from_days (secs / 86400))
             (sod / 3600) (sod mod 3600 / 60) (sod mod 60)
             (lus mod 1000000) t.

(** what the [datetime] constructor accepts *)
Definition valid (dt : datetime) : bool :=
  valid_date (dt_date dt) &&
  (0 <=? hour dt) && (hour dt <? 24) &&
  (0 <=? minute dt) && (minute dt <? 60) &&
  (0 <=? second dt) && (second dt <? 60) &&
  (0 <=? microsecond dt) && (microsecond dt <? 1000000).

End Datetime.

(* ===================================================================== *)
(** ** Printing and reading decimal fields *)
(* ===================================================================== *)

Module Text.

Definition digit (n : Z) : ascii := ascii_of_nat (48 + Z.to_nat n).

(** [n] printed with exactly [k] digits, as ["%0kd" % n] does for
    [0 <= n < 10^k] *)
Fixpoint digits (k : nat) (n : Z) : list ascii :=
  match k with
  | O => []
  | S k' => digits k' (n / 10) ++ [digit (n mod 10)]
  end.

Definition digit_val (a : ascii) : option Z :=
  let n := Z.of_nat (nat_of_ascii a) in
  if (48 <=? n) && (n <=? 57) then Some (n - 48) else None.

Definition is_digit (a : ascii) : bool :=
  match digit_val a with Some _ => true | None => false end.

(** the value of a list of digit characters read after [acc] *)
Fixpoint read_digits (acc : Z) (s : list ascii) : option Z :=
  match s with
  | [] => Some acc
  | a :: r => d ← digit_val a; read_digits (acc * 10 + d) r
  end.

(** exactly [k] digits at the head of the input *)
Definition take_digits (k : nat) (s : list ascii) : option (Z * list ascii) :=
  if decide (k ≤ length s)%nat then
    v ← read_digits 0 (take k s); Some (v, drop k s)
  else None.

(** the longest prefix of digits, and the rest *)
Fixpoint span_digits (s : list ascii) : list ascii * list ascii :=
  match s with
  | a :: r =>
      if is_digit a then let '(ds, rest) := span_digits r in (a :: ds, rest)
      else ([], s)
  | [] => ([], [])
  end.

Definition expect (c : ascii) (s : list ascii) : option (list ascii) :=
  match s with
  | a :: r => if Ascii.eqb a c then Some r else None
  | [] => None
  end.

Definition is_space (a : ascii) : bool :=
  Ascii.eqb a " " || Ascii.eqb a "009" || Ascii.eqb a "010" || Ascii.eqb a "013".

Fixpoint skip_spaces (s : list ascii) : list ascii :=
  match s with
  | a :: r => if is_space a then skip_spaces r else s
  | [] => []
  end.

Definition chars (s : string) : list ascii := list_ascii_of_string s.
Definition str (l : list ascii) : string := string_of_list_ascii l.

End Text.

(* ===================================================================== *)
(** ** pandas: columns, frames, timestamps as text *)
(* ===================================================================== *)

Module Pandas.
Import Calendar Datetime Text.

(** an element of an object column: a str, or NaN for a missing value *)
Inductive obj : Type :=
  | OStr (s : string)
  | ONaN.

(** A column (a Series with the default RangeIndex) by dtype.  A timestamp
    is its int64 count of nanoseconds since the epoch in UTC; None is NaT. *)
Inductive column : Type :=
  | Int64 (l : list Z)
  | Float64 (l : list float)
  | Bool (l : list bool)
  | Object (l : list obj)
  | Datetime64 (l : list (option Z))                 (* datetime64[ns] *)
  | DatetimeTZ (zone : string) (l : list (option Z)). (* datetime64[ns, zone] *)

Definition col_len (c : column) : nat :=
  match c with
  | Int64 l => length l
  | Float64 l => length l
  | Bool l => length l
  | Object l => length l
  | Datetime64 l => length l
  | DatetimeTZ _ l => length l
  end.

(** A DataFrame with the default RangeIndex: its named columns. *)
Abbreviation DataFrame := (gmap string column).

(** pandas keeps all columns of a frame at the length of its index *)
Definition frame_rows (df : DataFrame) (n : nat) : Prop :=
  map_Forall (fun _ c => col_len c = n) df.

(** [df[name]] *)
Definition getitem (df : DataFrame) (name : string) : result column :=
  match df !! name with
  | Some c => Ok c
  | None => Raise (KeyError name)
  end.

Definition int64_min : Z := - 2 ^ 63.
Definition int64_max : Z := 2 ^ 63 - 1.

(** a timestamp is NaT or between [Timestamp.min] and [Timestamp.max] *)
Definition in_bounds (t : option Z) : bool :=
  match t with
  | Some ns => (- int64_max <=? ns) && (ns <=? int64_max)
  | None => true
  end.

(** One int64 cell under [pd.to_datetime(_, unit="ms")]: the smallest int64
    is NaT, otherwise the value is scaled to nanoseconds and has to fit. *)
Definition ms_to_ns (ms : Z) : result (option Z) :=
  if ms =? int64_min then Ok None
  else
    let ns := ms * 1000000 in
    if (- int64_max <=? ns) && (ns <=? int64_max) then Ok (Some ns)
    else Raise OutOfBoundsDatetime.

Definition ms_to_ns_all (l : list Z) : result (list (option Z)) :=
  result_all (ms_to_ns <$> l).

(** [date.isoformat()], "%04d-%02d-%02d" *)
Definition iso_date (d : date) : list ascii :=
  digits 4 (year d) ++ chars "-" ++ digits 2 (month d) ++ chars "-"
  ++ digits 2 (day d).

(** "%02d:%02d:%02d" *)
Definition iso_hms (dt : datetime) : list ascii :=
  digits 2 (hour dt) ++ chars ":" ++ digits 2 (minute dt) ++ chars ":"
  ++ digits 2 (second dt).

(** ".%06d", left out when the microsecond is 0 *)
Definition iso_micro (us : Z) : list ascii :=
  if us =? 0 then [] else chars "." ++ digits 6 us.

(** the UTC offset as "+HH:MM", with ":SS" when it has seconds *)
Definition iso_offset (off : Z) : list ascii :=
  let a := Z.abs off in
  chars (if off <? 0 then "-" else "+")
  ++ digits 2 (a / 3600) ++ chars ":" ++ digits 2 (a mod 3600 / 60)
  ++ (if a mod 60 =? 0 then [] else chars ":" ++ digits 2 (a mod 60)).

(** the fraction of a second of a timestamp: nothing, six digits, or nine
    digits when there are nanoseconds *)
Definition iso_fraction (us nano : Z) : list ascii :=
  if nano =? 0 then iso_micro us
  else chars "." ++ digits 6 us ++ digits 3 nano.

(** [str(Timestamp)] for the timestamp [ns] in a zone [off] seconds east
    of UTC: "YYYY-MM-DD HH:MM:SS", the fraction, the offset. *)
Definition timestamp_chars (ns off : Z) : list ascii :=
  let dt := fields_of_us (ns / 1000) off (Some (tzoffset off)) in
  iso_date (dt_date dt) ++ chars " " ++ iso_hms dt
  ++ iso_fraction (microsecond dt) (ns mod 1000)
  ++ iso_offset off.

Definition timestamp_str (ns off : Z) : string := str (timestamp_chars ns off).

(** [strftime("%Y-%m-%d %H:%M:%S")] *)
Definition strftime_ymd_hms (dt : datetime) : string :=
  str (iso_date (dt_date dt) ++ chars " " ++ iso_hms dt).

Definition pad_right (w : nat) (s : string) : string :=
  s ++ str (replicate (w - String.length s) " "%char).

Definition pad_left (w : nat) (s : string) : string :=
  str (replicate (w - String.length s) " "%char) ++ s.

Definition max_width (l : list string) : nat :=
  foldr (fun s w => Nat.max (String.length s) w) 0%nat l.

Definition newline : string := String "010"%char EmptyString.

Fixpoint join_lines (l : list string) : string :=
  match l with
  | [] => EmptyString
  | [s] => s
  | s :: r => s ++ newline ++ join_lines r
  end.

(** [Series.to_string()]: one line per row, the index label padded to the
    widest label, three spaces, the value padded to the widest value. *)
Definition to_string (values : list string) : string :=
  match values with
  | [] => "Series([], )"
  | _ =>
      let labels := (fun i : nat => pretty i) <$> seq 0 (length values) in
      let wl := max_width labels in
      let wv := max_width values in
      join_lines
        (zip_with (fun l v => pad_right wl l ++ "   " ++ pad_left wv v)
                  labels values)
  end.

End Pandas.

(* ===================================================================== *)
(** ** dateutil.parser.parse

    The parser is modelled on the one form the script hands to it: spaces,
    then "YYYY-MM-DD HH:MM:SS", an optional fraction of a second, and an
    optional UTC offset "+HH:MM" or "-HH:MM".  Of the fraction the first
    six digits count.  An offset of zero gives [tzutc()], any other
    [tzoffset(None, seconds)].  Any other text is a [DateParseError]. *)
(* ===================================================================== *)

Module Dateutil.
Import Calendar Datetime Text.

Definition parse_fraction (s : list ascii) : option (Z * list ascii) :=
  match s with
  | "."%char :: r =>
      let '(ds, rest) := span_digits r in
      match ds with
      | [] => None
      | _ => us ← read_digits 0 (take 6 (ds ++ replicate 6 "0"%char));
             Some (us, rest)
      end
  | _ => Some (0, s)
  end.

(** the tzinfo for an offset of [off] seconds *)
Definition tz_of_offset (off : Z) : tzinfo :=
  if off =? 0 then tzutc else tzoffset off.

Definition parse_offset (s : list ascii) : option (option tzinfo) :=
  match s with
  | [] => Some None
  | c :: r =>
      sign ← (if Ascii.eqb c "+" then Some 1
              else if Ascii.eqb c "-" then Some (-1) else None);
      '(hh, r) ← take_digits 2 r;
      r ← expect ":" r;
      '(mm, r) ← take_digits 2 r;
      match r with
      | [] =>
          Some (Some (tz_of_offset (sign * (hh * 3600 + mm * 60))))
      | _ => None
      end
  end.

Definition parse_fields (s : list ascii) : option datetime :=
  let s := skip_spaces s in
  '(y, s) ← take_digits 4 s;
  s ← expect "-" s;
  '(m, s) ← take_digits 2 s;
  s ← expect "-" s;
  '(d, s) ← take_digits 2 s;
  s ← expect " " s;
  '(hh, s) ← take_digits 2 s;
  s ← expect ":" s;
  '(mi, s) ← take_digits 2 s;
  s ← expect ":" s;
  '(ss, s) ← take_digits 2 s;
  '(us, s) ← parse_fraction s;
  t ← parse_offset s;
  Some (mkdatetime (mkdate y m d) hh mi ss us t).

Definition parse (s : string) : result datetime :=
  match parse_fields (chars s) with
  | Some dt => if valid dt then Ok dt else Raise DateParseError
  | None => Raise DateParseError
  end.

End Dateutil.

(* ===================================================================== *)
(** ** Python values and the bokeh data source *)
(* ===================================================================== *)

(** The values the script puts into the columns of the data source. *)
Inductive pyval : Type :=
  | VDatetime (d : Datetime.datetime)
  | VSeries (c : Pandas.column)
  | VFloat (f : float)
  | VStr (s : string).

Definition is_str (v : pyval) : bool :=
  match v with VStr _ => true | _ => false end.

Definition is_float (v : pyval) : bool :=
  match v with VFloat _ => true | _ => false end.

Definition is_datetime (v : pyval) : bool :=
  match v with VDatetime _ => true | _ => false end.

Module Bokeh.

(** [ColumnDataSource.data]: a dict from column names to lists *)
Abbreviation columns := (gmap string (list pyval)).

(** the lengths of the new columns are all the same *)
Definition same_lengths (new_data : columns) : bool :=
  match (map_to_list new_data).*2 with
  | [] => true
  | l :: r => forallb (fun l' => Nat.eqb (length l') (length l)) r
  end.

(** [L.extend(new); if rollover is not None: del L[:-rollover]] *)
Definition extend_rollover (L new : list pyval) (rollover : option Z)
  : list pyval :=
  let L := (L ++ new)%list in
  match rollover with
  | Some r => Py.del_prefix L (- r)
  | None => L
  end.

(** [ColumnDataSource.stream(new_data, rollover)] for columns held as
    Python lists: the new data has to name exactly the existing columns,
    with one length; then every column is extended and rolled over. *)
Definition stream (new_data : columns) (rollover : option Z) (data : columns)
  : result columns :=
  if decide (dom new_data = dom data) then
    if same_lengths new_data then
      Ok (map_imap (fun k L =>
            Some (match new_data !! k with
                  | Some new => extend_rollover L new rollover
                  | None => L
                  end)) data)
    else Raise ValueError
  else Raise ValueError.

End Bokeh.

(* ===================================================================== *)
(** ** The outside world *)
(* ===================================================================== *)

(** [requests.get(url, params=params)]; the script passes no timeout, so
    the call goes out with the default of requests, None. *)
Record Request : Type := mkRequest {
  url : string;
  params : list (string * string);
  timeout : option Z
}.

(** what the script asks of the world, in order *)
Inductive event : Type :=
  | EvGet (r : Request)      (* one HTTP GET *)
  | EvNow.                   (* one reading of the clock *)

(** What the script does not decide: the answers of the server, the
    clock, and the parts of its libraries left open here: the CSV reader
    of pandas, the time zone database (the offset from UTC, in seconds,
    of a zone at a second since the epoch), [float] on a str, and
    [pd.to_datetime] on a row of a column that is not int64.  The number
    handed to the server and to the clock is the count of events before
    the call. *)
Record World : Type := mkWorld {
  http_get : nat -> Request -> result string;
  utcnow_us : nat -> Z;
  read_csv : string -> string -> result Pandas.DataFrame;
  zone_offset : string -> Z -> Z;
  float_of_str : string -> result float;
  to_datetime_other : Pandas.column -> nat -> result (option Z)
}.

(* ===================================================================== *)
(** ** The script *)
(* ===================================================================== *)

(** module constants *)
Definition base : string := "https://ws-api.iextrading.com/1.0/".
Definition endpoint : string := "tops/last".
Definition set_timezone : string := "US/Eastern".

Definition empty_columns : Bokeh.columns :=
  <["time" := []]> (<["display_time" := []]> (<["price" := []]> ∅)).

(** The module globals and the widget properties the callbacks touch,
    with the log of what was asked of the world. *)
Record State : Type := mkState {
  TICKER : string;
  ticker_textbox_value : string;       (* ticker_textbox.value *)
  price_plot_title_text : string;      (* price_plot.title.text *)
  data : Bokeh.columns;                (* data.data *)
  log : list event
}.

(** the state once the module body has run *)
Definition initial_state : State :=
  mkState EmptyString EmptyString
          ("IEX Real Time Price Security Symbol: " ++ EmptyString)
          empty_columns [].

(** A computation reads and writes the state and returns or raises; what
    it wrote before raising stays written. *)
Definition M (A : Type) : Type := State -> result A * State.

Definition ret {A} (a : A) : M A := fun s => (Ok a, s).

Definition bind {A B} (c : M A) (k : A -> M B) : M B :=
  fun s =>
    match c s with
    | (Ok a, s') => k a s'
    | (Raise e, s') => (Raise e, s')
    end.

Definition lift {A} (r : result A) : M A := fun s => (r, s).

Notation "'do' x <- c ;; k" := (bind c (fun x => k))
  (at level 10, x pattern, c at level 99, k at level 200).

Definition get_TICKER : M string := fun s => (Ok (TICKER s), s).

Definition emit (e : event) : M unit :=
  fun s => (Ok tt, mkState (TICKER s) (ticker_textbox_value s)
                           (price_plot_title_text s) (data s)
                           (log s ++ [e])).

(** a computation that changes nothing of the state but the log, which
    it may extend *)
Definition only_logs {A} (c : M A) : Prop :=
  forall s,
    TICKER (snd (c s)) = TICKER s /\
    ticker_textbox_value (snd (c s)) = ticker_textbox_value s /\
    price_plot_title_text (snd (c s)) = price_plot_title_text s /\
    data (snd (c s)) = data s /\
    exists l, log (snd (c s)) = (log s ++ l)%list.

(** the three columns and the component of a triple that goes into each *)
Definition component (name : string) (q : pyval * pyval * pyval) : pyval :=
  if String.eqb name "time" then q.1.1
  else if String.eqb name "display_time" then q.1.2
  else q.2.

Definition is_column (name : string) : Prop :=
  name = "time" \/ name = "display_time" \/ name = "price".

(** the instant of the time of a triple, if it is an aware datetime *)
Definition quote_instant (q : pyval * pyval * pyval) : option Z :=
  match q.1.1 with
  | VDatetime d => Datetime.instant_us d
  | _ => None
  end.

(** every entry is an instant, and each is before the next *)
Fixpoint increasing (l : list (option Z)) : bool :=
  match l with
  | Some a :: ((Some b :: _) as r) => (a <? b) && increasing r
  | [Some _] => true
  | [] => true
  | _ => false
  end.

Section Script.

Variable W : World.

(** [requests.get(url, params=params).content] *)
Definition requests_get (u : string) (p : list (string * string)) : M string :=
  fun s =>
    let r := mkRequest u p None in
    bind (emit (EvGet r)) (fun _ => lift (http_get W (length (log s)) r)) s.

(** [datetime.now(timezone('UTC'))], in microseconds since the epoch *)
Definition datetime_now_utc : M Z :=
  fun s => bind (emit EvNow) (fun _ => ret (utcnow_us W (length (log s)))) s.

(** [utc.astimezone(timezone(zone))] *)
Definition astimezone (us : Z) (zone : string) : Datetime.datetime :=
  let off := zone_offset W zone (us / 1000000) in
  Datetime.fields_of_us us off (Some (Datetime.pytz_zone zone off)).

(** the wall clock reading of a timestamp of a column in [zone] *)
Definition stamp_fields (zone : string) (ns : Z) : Datetime.datetime :=
  let off := zone_offset W zone (ns / 1000000000) in
  Datetime.fields_of_us (ns / 1000) off (Some (Datetime.tzoffset off)).

(** [str(x)] for an element of a datetime64[ns, zone] column *)
Definition stamp_str (zone : string) (t : option Z) : string :=
  match t with
  | Some ns => Pandas.timestamp_str ns (zone_offset W zone (ns / 1000000000))
  | None => "NaT"
  end.

(** [pd.to_datetime(col, unit="ms")]: a datetime64[ns] column, whose
    timestamps fit an int64 count of nanoseconds *)
Definition to_datetime_ms (c : Pandas.column) : result Pandas.column :=
  result_bind
    (match c with
     | Pandas.Int64 l => Pandas.ms_to_ns_all l
     | _ => result_all (to_datetime_other W c <$> seq 0 (Pandas.col_len c))
     end)
    (fun ts =>
       if forallb Pandas.in_bounds ts then Ok (Pandas.Datetime64 ts)
       else Raise OutOfBoundsDatetime).

(** [col.dt.tz_localize(zone)] *)
Definition tz_localize (zone : string) (c : Pandas.column)
  : result Pandas.column :=
  match c with
  | Pandas.Datetime64 l => Ok (Pandas.DatetimeTZ zone l)
  | Pandas.DatetimeTZ _ _ => Raise TypeError
  | _ => Raise AttributeError
  end.

(** [col.dt.tz_convert(zone)]: the instants stay, the zone changes *)
Definition tz_convert (zone : string) (c : Pandas.column)
  : result Pandas.column :=
  match c with
  | Pandas.DatetimeTZ _ l => Ok (Pandas.DatetimeTZ zone l)
  | Pandas.Datetime64 _ => Raise TypeError
  | _ => Raise AttributeError
  end.

(** [col.to_string()]; the script calls it on the converted time column
    only, so the text of the other dtypes is not modelled *)
Definition to_string (c : Pandas.column) : result string :=
  match c with
  | Pandas.DatetimeTZ zone l => Ok (Pandas.to_string (stamp_str zone <$> l))
  | _ => Raise AttributeError
  end.

(** [col.dt.strftime("%Y-%m-%d %H:%M:%S")]: an object column, NaN for NaT *)
Definition dt_strftime (c : Pandas.column) : result Pandas.column :=
  match c with
  | Pandas.DatetimeTZ zone l =>
      Ok (Pandas.Object
            ((fun t : option Z =>
                match t with
                | Some ns => Pandas.OStr
                               (Pandas.strftime_ymd_hms (stamp_fields zone ns))
                | None => Pandas.ONaN
                end) <$> l))
  | _ => Raise AttributeError
  end.

(** [float(x)] for a Python int that came out of an int64 column *)
Definition float_of_int64 (z : Z) : float :=
  let mag (n : Z) : float :=
    if n =? 2 ^ 63
    then PrimFloat.mul (PrimFloat.of_uint63 (Uint63.of_Z (2 ^ 62))) 2%float
    else PrimFloat.of_uint63 (Uint63.of_Z n) in
  if z <? 0 then PrimFloat.opp (mag (- z)) else mag z.

(** [float(col)]: pandas converts a Series of length one through its only
    element and raises a TypeError for any other length. *)
Definition series_float (c : Pandas.column) : result float :=
  if negb (Nat.eqb (Pandas.col_len c) 1) then Raise TypeError
  else
    match c with
    | Pandas.Int64 [z] => Ok (float_of_int64 z)
    | Pandas.Float64 [f] => Ok f
    | Pandas.Bool [b] => Ok (if b then 1%float else 0%float)
    | Pandas.Object [Pandas.OStr s] => float_of_str W s
    | Pandas.Object [Pandas.ONaN] => Ok PrimFloat.nan
    | _ => Raise TypeError
    end.

(** [init()] *)
Definition init : M Datetime.datetime :=
  do now <- datetime_now_utc;;
  ret (astimezone now set_timezone).

(** [update_ticker()] *)
Definition update_ticker : M unit :=
  fun s =>
    (Ok tt,
     mkState (ticker_textbox_value s)
             (ticker_textbox_value s)
             ("IEX Real-Time Price: " ++ ticker_textbox_value s)
             empty_columns
             (log s)).

(** [get_last_price()] *)
Definition get_last_price : M (pyval * pyval * pyval) :=
  do ticker <- get_TICKER;;
  let payload := [("format", "csv"); ("symbols", ticker)] in
  do raw <- requests_get (base ++ endpoint) payload;;
  do prices_df <- lift (read_csv W raw ",");;
  (* prices_df["time"] = pd.to_datetime(prices_df["time"], unit="ms") *)
  do col <- lift (Pandas.getitem prices_df "time");;
  do col <- lift (to_datetime_ms col);;
  let prices_df := <["time" := col]> prices_df in
  (* prices_df["time"] = prices_df["time"].dt.tz_localize('UTC')
                                          .dt.tz_convert(set_timezone) *)
  do col <- lift (Pandas.getitem prices_df "time");;
  do col <- lift (tz_localize "UTC" col);;
  do col <- lift (tz_convert set_timezone col);;
  let prices_df := <["time" := col]> prices_df in
  (* time = parse(prices_df["time"].to_string()[1:]) *)
  do col <- lift (Pandas.getitem prices_df "time");;
  do time <- lift (to_string col);;
  let time := Py.str_from_1 time in
  do time <- lift (Dateutil.parse time);;
  (* prices_df["display_time"] = prices_df["time"].dt.strftime(...) *)
  do col <- lift (Pandas.getitem prices_df "time");;
  do col <- lift (dt_strftime col);;
  let prices_df := <["display_time" := col]> prices_df in
  (* return time, prices_df["display_time"], float(prices_df["price"]) *)
  do display <- lift (Pandas.getitem prices_df "display_time");;
  do price <- lift (Pandas.getitem prices_df "price");;
  do price <- lift (series_float price);;
  ret (VDatetime time, VSeries display, VFloat price).

(** [data.stream(new_data, rollover)] *)
Definition data_stream (new_data : Bokeh.columns) (rollover : option Z)
  : M unit :=
  fun s =>
    match Bokeh.stream new_data rollover (data s) with
    | Ok d => (Ok tt, mkState (TICKER s) (ticker_textbox_value s)
                              (price_plot_title_text s) d (log s))
    | Raise e => (Raise e, s)
    end.

(** [update_price()] *)
Definition update_price : M unit :=
  do ticker <- get_TICKER;;
  do (time, display, new_price) <-
    (if String.eqb EmptyString ticker then
       do time <- init;;
       do display <- init;;
       ret (VDatetime time, VDatetime display, VFloat 0%float)
     else get_last_price);;
  let new_data : Bokeh.columns :=
    <["time" := [time]]>
      (<["display_time" := [display]]> (<["price" := [new_price]]> ∅)) in
  data_stream new_data (Some 3600).

(** *** The event loop

    The bokeh server runs [update_price] every second and
    [update_ticker] on a click of the button; the user types into the text
    box.  A callback that raises leaves the state as it was at the raise
    and the loop goes on. *)
Inductive input : Type :=
  | Tick
  | Click
  | Typed (v : string).

Definition set_textbox (v : string) : M unit :=
  fun s => (Ok tt, mkState (TICKER s) v (price_plot_title_text s)
                           (data s) (log s)).

Definition handle (i : input) : M unit :=
  match i with
  | Tick => update_price
  | Click => update_ticker
  | Typed v => set_textbox v
  end.

Definition step (s : State) (i : input) : State := snd (handle i s).

Definition run (ins : list input) (s : State) : State := fold_left step ins s.

(** [k] invocations of the periodic callback in a row, up to the first
    that raises *)
Fixpoint ticks (k : nat) : M unit :=
  match k with
  | O => ret tt
  | S k' => do _ <- update_price;; ticks k'
  end.

(** a column of the data source; the empty list if there is none *)
Definition column (name : string) (s : State) : list pyval :=
  default [] (data s !! name).

(** *** Names for parts of [update_price]

    [new_quote] is the if-else of [update_price] that yields time, display
    and new_price; [new_data] is the dict it builds from them; [quotes k s]
    lists the triples that [k] ticks from [s] yield in turn, up to the
    first tick that raises. *)
Definition new_quote : M (pyval * pyval * pyval) :=
  do ticker <- get_TICKER;;
  if String.eqb EmptyString ticker then
    do time <- init;;
    do display <- init;;
    ret (VDatetime time, VDatetime display, VFloat 0%float)
  else get_last_price.

Definition new_data (q : pyval * pyval * pyval) : Bokeh.columns :=
  let '(time, display, new_price) := q in
  <["time" := [time]]>
    (<["display_time" := [display]]> (<["price" := [new_price]]> ∅)).

(** *** Names for parts of [get_last_price]

    [request_for t] is the call that goes out for the ticker [t];
    [quote_of_frame df] is what the function makes of the parsed frame:
    the time read back from the text of the converted column, the column
    of display times, and the price as a float. *)
Definition request_for (ticker : string) : Request :=
  mkRequest (base ++ endpoint) [("format", "csv"); ("symbols", ticker)] None.

Definition display_of (ts : list (option Z)) : Pandas.column :=
  Pandas.Object
    ((fun t : option Z =>
        match t with
        | Some ns => Pandas.OStr
                       (Pandas.strftime_ymd_hms (stamp_fields set_timezone ns))
        | None => Pandas.ONaN
        end) <$> ts).

Definition quote_of_frame (df : Pandas.DataFrame)
  : result (pyval * pyval * pyval) :=
  result_bind (Pandas.getitem df "time") (fun col =>
  result_bind (to_datetime_ms col) (fun col =>
  match col with
  | Pandas.Datetime64 ts =>
      result_bind
        (Dateutil.parse
           (Py.str_from_1 (Pandas.to_string (stamp_str set_timezone <$> ts))))
        (fun time =>
      result_bind (Pandas.getitem df "price") (fun price =>
      result_bind (series_float price) (fun price =>
      Ok (VDatetime time, VSeries (display_of ts), VFloat price))))
  | _ => Raise AttributeError
  end)).

Fixpoint quotes (k : nat) (s : State) : list (pyval * pyval * pyval) :=
  match k with
  | O => []
  | S k' =>
      match new_quote s, update_price s with
      | (Ok q, _), (Ok _, s') => q :: quotes k' s'
      | _, _ => []
      end
  end.

End Script.

(** the offsets of the zones of pytz are whole minutes, less than a day *)
Definition tz_sane (W : World) : Prop :=
  forall zone t,
    zone_offset W zone t mod 60 = 0 /\ -86400 < zone_offset W zone t < 86400.

(** the state with one more event in its log *)
Definition logged (s : State) (e : event) : State :=
  mkState (TICKER s) (ticker_textbox_value s) (price_plot_title_text s)
          (data s) (log s ++ [e])%list.

(** The states the running program can be in, for a given world. *)
Definition reachable (W : World) (s : State) : Prop :=
  exists ins, s = run W ins initial_state.

(* ===================================================================== *)
(** ** A world to run the script in

    One concrete world, used to evaluate the script: a server that
    answers every request with one row for each symbol asked for, stamped
    with a time that advances by one second per event, a clock that starts
    on 2020-04-01 and advances likewise, the rules of US/Eastern for 2020,
    and a CSV reader for bodies whose cells are integers, decimals with a
    point, or text. *)
(* ===================================================================== *)

Module Demo.
Import Text.

Fixpoint split_on (c : ascii) (s : list ascii) : list (list ascii) :=
  match s with
  | [] => [[]]
  | a :: r =>
      if Ascii.eqb a c then [] :: split_on c r
      else match split_on c r with
           | w :: ws => (a :: w) :: ws
           | [] => [[a]]
           end
  end.

(** a cell as read: an integer, a decimal, or text *)
Inductive cell : Type :=
  | CInt (z : Z)
  | CDec (mantissa : Z) (places : nat)
  | CText (s : string).

Definition unsigned_cell (s : list ascii) : cell :=
  match read_digits 0 s, s with
  | Some z, _ :: _ => CInt z
  | _, _ =>
      match split_on "." s with
      | [i; f] =>
          match read_digits 0 (i ++ f), i, f with
          | Some z, _ :: _, _ :: _ => CDec z (length f)
          | _, _, _ => CText (str s)
          end
      | _ => CText (str s)
      end
  end.

Definition read_cell (s : list ascii) : cell :=
  match s with
  | "-"%char :: r =>
      match unsigned_cell r with
      | CInt z => CInt (- z)
      | CDec z k => CDec (- z) k
      | CText _ => CText (str s)
      end
  | _ => unsigned_cell s
  end.

Definition float_of_dec (z : Z) (k : nat) : float :=
  let q := PrimFloat.div (PrimFloat.of_uint63 (Uint63.of_Z (Z.abs z)))
                         (PrimFloat.of_uint63 (Uint63.of_Z (10 ^ Z.of_nat k))) in
  if z <? 0 then PrimFloat.opp q else q.

Definition float_of_cell (c : cell) : option float :=
  match c with
  | CInt z => Some (float_of_dec z 0)
  | CDec z k => Some (float_of_dec z k)
  | CText _ => None
  end.

Definition int_of_cell (c : cell) : option Z :=
  match c with CInt z => Some z | _ => None end.

Definition text_of_cell (raw : list ascii) : Pandas.obj := Pandas.OStr (str raw).

(** the dtype of a column: int64 if every cell is an integer, float64 if
    every cell is a number, object otherwise *)
Definition typed_column (raw : list (list ascii)) : Pandas.column :=
  let cells := read_cell <$> raw in
  match mapM int_of_cell cells with
  | Some zs => Pandas.Int64 zs
  | None =>
      match mapM float_of_cell cells with
      | Some fs => Pandas.Float64 fs
      | None => Pandas.Object (text_of_cell <$> raw)
      end
  end.

Definition nonempty_line (l : list ascii) : bool :=
  match l with [] => false | _ => true end.

Definition read_csv (content sep : string) : result Pandas.DataFrame :=
  match chars sep with
  | [c] =>
      match filter (fun l => Is_true (nonempty_line l))
                   (split_on "010" (chars content)) with
      | [] => Raise ParserError
      | header :: rows =>
          let names := split_on c header in
          let rows := split_on c <$> rows in
          if forallb (fun r => Nat.eqb (length r) (length names)) rows then
            Ok (list_to_map
                  (imap (fun i name =>
                           (str name,
                            typed_column ((fun r => default [] (r !! i)) <$> rows)))
                        names))
          else Raise ParserError
      end
  | _ => Raise ParserError
  end.

Definition t0_ms : Z := 1585747800000.   (* 2020-04-01 09:30:00 -04:00 *)

Definition row_for (n : nat) (sym : list ascii) : string :=
  str sym ++ ",250.12,100," ++ pretty (t0_ms + 1000 * Z.of_nat n)
  ++ Pandas.newline.

Definition http_get (n : nat) (r : Request) : result string :=
  match list_find (fun p => fst p = "symbols") (params r) with
  | Some (_, (_, syms)) =>
      Ok ("symbol,price,size,time" ++ Pandas.newline
          ++ foldr String.append EmptyString
                   (row_for n <$> split_on "," (chars syms)))
  | None => Raise ConnectionError
  end.

Definition utcnow_us (n : nat) : Z := (t0_ms + 1000 * Z.of_nat n) * 1000.

Definition utc_seconds (y m d h : Z) : Z :=
  Calendar.days_from_civil (Calendar.mkdate y m d) * 86400 + h * 3600.

(** US/Eastern in 2020: daylight time from 8 March 07:00 UTC to
    1 November 06:00 UTC *)
Definition zone_offset (zone : string) (t : Z) : Z :=
  if String.eqb zone "US/Eastern" then
    if (utc_seconds 2020 3 8 7 <=? t) && (t <? utc_seconds 2020 11 1 6)
    then -14400 else -18000
  else 0.

Definition world : World :=
  mkWorld http_get utcnow_us read_csv zone_offset
          (fun _ => Raise ValueError) (fun _ _ => Raise ValueError).

(** the state after the user typed AAPL and clicked the button *)
Definition aapl_state : State :=
  run world [Typed "AAPL"; Click] initial_state.

(** what the server answers to the first request for AAPL, the frame
    read from it, and the triple made of the frame *)
Definition aapl_raw : string :=
  "symbol,price,size,time" ++ Pandas.newline
  ++ "AAPL,250.12,100,1585747800000" ++ Pandas.newline.

Definition aapl_frame : Pandas.DataFrame :=
  list_to_map
    [("symbol", Pandas.Object [Pandas.OStr "AAPL"]);
     ("price", Pandas.Float64 [float_of_dec 25012 2]);
     ("size", Pandas.Int64 [100]);
     ("time", Pandas.Int64 [t0_ms])].

Definition aapl_quote : pyval * pyval * pyval :=
  (VDatetime
     (Datetime.mkdatetime (Calendar.mkdate 2020 4 1) 9 30 0 0
        (Some (Datetime.tzoffset (-14400)))),
   VSeries (Pandas.Object [Pandas.OStr "2020-04-01 09:30:00"]),
   VFloat (float_of_dec 25012 2)).

(** the state after the user asked for two symbols at once, and the
    answer of the server to the request for them *)
Definition two_state : State :=
  run world [Typed "AAPL,MSFT"; Click] initial_state.

Definition two_raw : string :=
  "symbol,price,size,time" ++ Pandas.newline
  ++ "AAPL,250.12,100,1585747800000" ++ Pandas.newline
  ++ "MSFT,250.12,100,1585747800000" ++ Pandas.newline.

Definition two_frame : Pandas.DataFrame :=
  list_to_map
    [("symbol", Pandas.Object [Pandas.OStr "AAPL"; Pandas.OStr "MSFT"]);
     ("price", Pandas.Float64 [float_of_dec 25012 2; float_of_dec 25012 2]);
     ("size", Pandas.Int64 [100; 100]);
     ("time", Pandas.Int64 [t0_ms; t0_ms])].

(** the state after two ticks with the ticker AAPL *)
Definition aapl_state_2 : State :=
  run world [Typed "AAPL"; Click; Tick; Tick] initial_state.

End Demo.

(* ===================================================================== *)
(** ** A mock of the fetch

    A second world, for runs of any length: the body of the answer to
    the request sent after [n] events has [n] characters, and the reader
    makes of a body of [n] characters a frame of one row, with the time
    [n] seconds after 2020-04-01 09:30:00 -04:00 and the price 1.0. *)
(* ===================================================================== *)

Module Mock.

Definition http_get (n : nat) (r : Request) : result string :=
  Ok (Text.str (replicate n "."%char)).

Definition time_of (raw : string) : Z :=
  Demo.t0_ms + 1000 * Z.of_nat (String.length raw).

Definition read_csv (raw sep : string) : result Pandas.DataFrame :=
  Ok (<["time" := Pandas.Int64 [time_of raw]]>
        (<["price" := Pandas.Float64 [1%float]]> ∅)).

Definition world : World :=
  mkWorld http_get Demo.utcnow_us read_csv Demo.zone_offset
          (fun _ => Raise ValueError) (fun _ _ => Raise ValueError).

(** the state after the user typed AAPL and clicked the button *)
Definition aapl_state : State :=
  run world [Typed "AAPL"; Click] initial_state.

(** the instant, in microseconds, of the time fetched after [n] events *)
Definition instant_after (n : nat) : option Z :=
  Some ((Demo.t0_ms + 1000 * Z.of_nat n) * 1000).

End Mock.

(* ===================================================================== *)
(** * Properties *)
(* ===================================================================== *)

Local Open Scope list_scope.

(** ** Rolling over a list *)

Lemma del_prefix_rollover {A} (L : list A) (r : Z) :
  0 < r -> Py.del_prefix L (- r) = Py.lastn (Z.to_nat r) L.
Proof.
  intros Hr. unfold Py.del_prefix, Py.slice_stop, Py.lastn.
  destruct (Z.ltb_spec (- r) 0); [|lia].
  f_equal. lia.
Qed.

Lemma length_lastn {A} (n : nat) (L : list A) :
  length (Py.lastn n L) = Nat.min (length L) n.
Proof. unfold Py.lastn. rewrite length_drop. lia. Qed.

Lemma lastn_all {A} (n : nat) (L : list A) :
  (length L <= n)%nat -> Py.lastn n L = L.
Proof.
  intros H. unfold Py.lastn. replace (length L - n)%nat with 0%nat by lia.
  reflexivity.
Qed.

Lemma lastn_app_lastn {A} (n : nat) (L1 L2 : list A) :
  Py.lastn n (Py.lastn n L1 ++ L2) = Py.lastn n (L1 ++ L2).
Proof.
  unfold Py.lastn. rewrite !length_app, length_drop, !skipn_app, drop_drop.
  rewrite length_drop. f_equal; f_equal; lia.
Qed.

Lemma lastn_snoc_drop {A} (n k : nat) (L : list A) :
  length L = (n + k)%nat -> Py.lastn n L = drop k L.
Proof. intros H. unfold Py.lastn. f_equal. lia. Qed.

Lemma extend_rollover_3600 (L new : list pyval) :
  Bokeh.extend_rollover L new (Some 3600) = Py.lastn 3600 (L ++ new).
Proof. unfold Bokeh.extend_rollover. now rewrite del_prefix_rollover. Qed.

Section Properties.

Variable W : World.

(** ** What the callbacks leave alone *)

Lemma only_logs_ret {A} (a : A) : only_logs (ret a).
Proof. intros s. cbn. repeat split. exists []. now rewrite app_nil_r. Qed.

Lemma only_logs_lift {A} (r : result A) : only_logs (lift r).
Proof. intros s. cbn. repeat split. exists []. now rewrite app_nil_r. Qed.

Lemma only_logs_get_TICKER : only_logs get_TICKER.
Proof. intros s. cbn. repeat split. exists []. now rewrite app_nil_r. Qed.

Lemma only_logs_emit (e : event) : only_logs (emit e).
Proof. intros s. cbn. repeat split. now exists [e]. Qed.

Lemma only_logs_bind {A B} (c : M A) (k : A -> M B) :
  only_logs c -> (forall a, only_logs (k a)) -> only_logs (bind c k).
Proof.
  intros Hc Hk s. unfold bind.
  specialize (Hc s). destruct (c s) as [[a|e] s1]; cbn in *; [|exact Hc].
  specialize (Hk a s1).
  destruct Hc as (H1 & H2 & H3 & H4 & l1 & Hl1).
  destruct Hk as (K1 & K2 & K3 & K4 & l2 & Hl2).
  repeat split; [congruence..|].
  exists (l1 ++ l2). rewrite Hl2, Hl1. now rewrite app_assoc.
Qed.

Lemma only_logs_requests_get u p : only_logs (requests_get W u p).
Proof.
  intros s. unfold requests_get.
  apply (only_logs_bind (emit _) _ (only_logs_emit _)).
  intros _. apply only_logs_lift.
Qed.

Lemma only_logs_now : only_logs (datetime_now_utc W).
Proof.
  intros s. unfold datetime_now_utc.
  apply (only_logs_bind (emit _) _ (only_logs_emit _)).
  intros _. apply only_logs_ret.
Qed.

Lemma only_logs_init : only_logs (init W).
Proof.
  apply only_logs_bind; [apply only_logs_now | intros; apply only_logs_ret].
Qed.

Ltac only_logs_step :=
  first [ apply only_logs_ret | apply only_logs_lift
        | apply only_logs_get_TICKER | apply only_logs_requests_get
        | apply only_logs_init
        | apply only_logs_bind; [| intros ?] ].

Lemma only_logs_get_last_price : only_logs (get_last_price W).
Proof. unfold get_last_price. repeat only_logs_step. Qed.

Lemma only_logs_new_quote : only_logs (new_quote W).
Proof.
  unfold new_quote. apply only_logs_bind; [apply only_logs_get_TICKER|].
  intros ticker. destruct (String.eqb EmptyString ticker).
  - repeat only_logs_step.
  - apply only_logs_get_last_price.
Qed.

(** ** Streaming one triple *)

Lemma update_price_unfold (s : State) :
  update_price W s =
  bind (new_quote W) (fun q => data_stream (new_data q) (Some 3600)) s.
Proof.
  unfold update_price, new_quote, bind, get_TICKER.
  destruct (String.eqb EmptyString (TICKER s)).
  - reflexivity.
  - destruct (get_last_price W s) as [[[[t d] p]|e] s1]; reflexivity.
Qed.

Lemma dom_new_data (q : pyval * pyval * pyval) :
  dom (new_data q) = dom empty_columns.
Proof.
  destruct q as [[t d] p]. unfold new_data, empty_columns.
  now rewrite !dom_insert_L.
Qed.

Lemma same_lengths_new_data (q : pyval * pyval * pyval) :
  Bokeh.same_lengths (new_data q) = true.
Proof. destruct q as [[t d] p]. reflexivity. Qed.

Lemma stream_lookup (nd D D' : Bokeh.columns) (r : option Z) (k : string) :
  Bokeh.stream nd r D = Ok D' ->
  D' !! k =
  (fun L => match nd !! k with
            | Some new => Bokeh.extend_rollover L new r
            | None => L
            end) <$> D !! k.
Proof.
  unfold Bokeh.stream. intros H.
  destruct (decide (dom nd = dom D)); [|discriminate].
  destruct (Bokeh.same_lengths nd); [|discriminate].
  injection H as <-. rewrite map_lookup_imap.
  destruct (D !! k); reflexivity.
Qed.

Lemma stream_dom (nd D D' : Bokeh.columns) (r : option Z) :
  Bokeh.stream nd r D = Ok D' -> dom D' = dom D /\ dom nd = dom D.
Proof.
  unfold Bokeh.stream. intros H.
  destruct (decide (dom nd = dom D)) as [Hd|]; [|discriminate].
  destruct (Bokeh.same_lengths nd); [|discriminate].
  injection H as <-. split; [|exact Hd].
  apply set_eq. intros k. rewrite !elem_of_dom, map_lookup_imap.
  destruct (D !! k); cbn; split; intros [? ?]; eauto; discriminate.
Qed.

Lemma stream_new_data_ok (q : pyval * pyval * pyval) (D : Bokeh.columns) :
  dom D = dom empty_columns ->
  exists D', Bokeh.stream (new_data q) (Some 3600) D = Ok D'.
Proof.
  intros HD. unfold Bokeh.stream.
  rewrite dom_new_data, HD, same_lengths_new_data.
  rewrite decide_True by reflexivity. eauto.
Qed.

Lemma stream_column (q : pyval * pyval * pyval) (D D' : Bokeh.columns)
      (name : string) (x : pyval) :
  Bokeh.stream (new_data q) (Some 3600) D = Ok D' ->
  new_data q !! name = Some [x] ->
  default [] (D' !! name) = Py.lastn 3600 (default [] (D !! name) ++ [x]).
Proof.
  intros Hs Hx. rewrite (stream_lookup _ _ _ _ name Hs), Hx.
  destruct (stream_dom _ _ _ _ Hs) as [_ Hd].
  assert (Hin : name ∈ dom D).
  { rewrite <- Hd. apply elem_of_dom. eauto. }
  apply elem_of_dom in Hin as [L ->]. cbn.
  apply extend_rollover_3600.
Qed.

Lemma update_price_ok (s s' : State) :
  update_price W s = (Ok tt, s') ->
  exists q s1,
    new_quote W s = (Ok q, s1) /\
    Bokeh.stream (new_data q) (Some 3600) (data s) = Ok (data s') /\
    TICKER s' = TICKER s /\
    ticker_textbox_value s' = ticker_textbox_value s /\
    price_plot_title_text s' = price_plot_title_text s /\
    log s' = log s1.
Proof.
  rewrite update_price_unfold. unfold bind.
  pose proof (only_logs_new_quote s) as (H1 & H2 & H3 & H4 & _).
  destruct (new_quote W s) as [[q|e] s1]; [|discriminate]. cbn in *.
  unfold data_stream. rewrite H4.
  destruct (Bokeh.stream (new_data q) (Some 3600) (data s)) as [D|e] eqn:E;
    [|discriminate].
  intros [= <-]. cbn. exists q, s1. repeat split; assumption.
Qed.

Lemma update_price_raise (s s' : State) (e : exn) :
  update_price W s = (Raise e, s') ->
  data s' = data s /\ TICKER s' = TICKER s /\
  ticker_textbox_value s' = ticker_textbox_value s.
Proof.
  rewrite update_price_unfold. unfold bind.
  pose proof (only_logs_new_quote s) as (H1 & H2 & H3 & H4 & _).
  destruct (new_quote W s) as [[q|e'] s1]; cbn in *.
  - unfold data_stream.
    destruct (Bokeh.stream (new_data q) (Some 3600) (data s1)); [discriminate|].
    intros [= _ <-]. auto.
  - intros [= _ <-]. auto.
Qed.

Lemma new_data_component (name : string) (q : pyval * pyval * pyval) :
  is_column name -> new_data q !! name = Some [component name q].
Proof. destruct q as [[t d] p]. intros [->|[->| ->]]; reflexivity. Qed.

(** One tick that returns puts the component of its triple at the end of
    each column and keeps the last 3600 entries. *)
Lemma update_price_column (s s' : State) (name : string) :
  update_price W s = (Ok tt, s') -> is_column name ->
  exists q s1,
    new_quote W s = (Ok q, s1) /\
    column name s' = Py.lastn 3600 (column name s ++ [component name q]).
Proof.
  intros H Hn. destruct (update_price_ok _ _ H) as (q & s1 & Hq & Hs & _).
  exists q, s1. split; [exact Hq|].
  unfold column. apply (stream_column q); [exact Hs|].
  now apply new_data_component.
Qed.

(** ** Many ticks *)

Lemma ticks_succ (k : nat) (s : State) :
  ticks W (S k) s =
  match update_price W s with
  | (Ok _, s1) => ticks W k s1
  | (Raise e, s1) => (Raise e, s1)
  end.
Proof. reflexivity. Qed.

Lemma ticks_columns (k : nat) (name : string) :
  is_column name ->
  forall s s',
    ticks W k s = (Ok tt, s') ->
    (length (column name s) <= 3600)%nat ->
    length (quotes W k s) = k /\
    column name s' =
    Py.lastn 3600 (column name s ++ (component name <$> quotes W k s)).
Proof.
  intros Hn. induction k as [|k IH]; intros s s' Hk Hlen.
  - cbn in Hk. injection Hk as <-. cbn. rewrite app_nil_r.
    now rewrite lastn_all.
  - rewrite ticks_succ in Hk.
    destruct (update_price W s) as [[[]|e] s1] eqn:Hu; [|discriminate].
    destruct (update_price_column _ _ name Hu Hn) as (q & s2 & Hq & Hc).
    assert (Hlen1 : (length (column name s1) <= 3600)%nat).
    { rewrite Hc, length_lastn. lia. }
    destruct (IH _ _ Hk Hlen1) as [Hl Hcol].
    cbn [quotes]. rewrite Hq, Hu. cbn [length fmap list_fmap].
    split; [now rewrite Hl|].
    rewrite Hcol, Hc, lastn_app_lastn, <- app_assoc. reflexivity.
Qed.

Lemma empty_columns_lookup (name : string) (L : list pyval) :
  empty_columns !! name = Some L -> L = [].
Proof.
  unfold empty_columns. intros H.
  repeat (apply lookup_insert_Some in H as [[_ H]|[_ H]]; [congruence|]).
  now rewrite lookup_empty in H.
Qed.

Lemma column_empty_columns (name : string) (s : State) :
  data s = empty_columns -> column name s = [].
Proof.
  intros H. unfold column. rewrite H.
  destruct (empty_columns !! name) as [L|] eqn:E; [|reflexivity].
  cbn. now apply empty_columns_lookup in E.
Qed.

(** C1: from a state whose buffer is empty and whose ticker is not the
    empty string, if [k] ticks in a row all return (every fetch succeeds),
    then each of the columns time, display_time and price has length
    [min k 3600] afterwards, and the ticker is as before. *)
Theorem ticks_length (k : nat) (s s' : State) (name : string) :
  data s = empty_columns ->
  TICKER s <> EmptyString ->
  ticks W k s = (Ok tt, s') ->
  is_column name ->
  length (column name s') = Nat.min k 3600 /\ TICKER s' = TICKER s.
Proof.
  intros Hd _ Hk Hn. split.
  - pose proof (column_empty_columns name s Hd) as Hc.
    destruct (ticks_columns k name Hn s s' Hk) as [Hl Hcol].
    { rewrite Hc. cbn. lia. }
    rewrite Hcol, Hc, length_lastn. cbn [app].
    now rewrite length_fmap, Hl.
  - clear Hd Hn. revert s Hk. induction k as [|k IH]; intros s Hk.
    + cbn in Hk. now injection Hk as <-.
    + rewrite ticks_succ in Hk.
      destruct (update_price W s) as [[[]|e] s1] eqn:Hu; [|discriminate].
      destruct (update_price_ok _ _ Hu) as (_ & _ & _ & _ & Ht & _).
      rewrite (IH _ Hk). exact Ht.
Qed.

(** ** The bound on the buffer *)

(** every list the data source holds has at most 3600 entries *)
Definition bounded (D : Bokeh.columns) : Prop :=
  forall name L, D !! name = Some L -> (length L <= 3600)%nat.

Lemma bounded_empty_columns : bounded empty_columns.
Proof. intros name L H. apply empty_columns_lookup in H as ->. cbn. lia. Qed.

Lemma bounded_stream (nd D D' : Bokeh.columns) :
  Bokeh.stream nd (Some 3600) D = Ok D' -> bounded D -> bounded D'.
Proof.
  intros Hs HD name L' HL'.
  rewrite (stream_lookup _ _ _ _ name Hs) in HL'.
  destruct (D !! name) as [L|] eqn:E; [|discriminate].
  injection HL' as <-. specialize (HD _ _ E). cbn.
  destruct (nd !! name); [|exact HD].
  rewrite del_prefix_rollover, length_lastn by lia. lia.
Qed.

Lemma bounded_step (s : State) (i : input) :
  bounded (data s) -> bounded (data (step W s i)).
Proof.
  intros Hb. unfold step, handle. destruct i as [| |v].
  - destruct (update_price W s) as [[[]|e] s'] eqn:Hu; cbn [snd].
    + destruct (update_price_ok _ _ Hu) as (q & s1 & _ & Hs & _).
      exact (bounded_stream _ _ _ Hs Hb).
    + destruct (update_price_raise _ _ _ Hu) as [-> _]. exact Hb.
  - exact bounded_empty_columns.
  - exact Hb.
Qed.

Lemma bounded_run (ins : list input) (s : State) :
  bounded (data s) -> bounded (data (run W ins s)).
Proof.
  revert s. induction ins as [|i ins IH]; intros s Hb; [exact Hb|].
  cbn. apply IH, bounded_step, Hb.
Qed.

(** C2: in every state the program can reach from the initial state, by
    ticks, clicks on the button and typing into the text box in any
    order, every column of the data source has at most 3600 entries. *)
Theorem buffer_bounded (s : State) (name : string) :
  reachable W s -> (length (column name s) <= 3600)%nat.
Proof.
  intros [ins ->].
  pose proof (bounded_run ins initial_state bounded_empty_columns) as Hb.
  unfold column. destruct (data (run W ins initial_state) !! name) as [L|] eqn:E.
  - exact (Hb _ _ E).
  - cbn. lia.
Qed.

(** ** The ticker mutator *)

(** C3: after [update_ticker] with the text box holding [v], the ticker is
    [v], the chart title is built from [v], and the three columns time,
    display_time and price of the data source are empty, so that the
    buffer has length 0; the call returns. *)
Theorem update_ticker_sets_and_clears (s : State) :
  let v := ticker_textbox_value s in
  let s' := snd (update_ticker s) in
  fst (update_ticker s) = Ok tt /\
  TICKER s' = v /\
  price_plot_title_text s' = ("IEX Real-Time Price: " ++ v)%string /\
  data s' = empty_columns /\
  dom (data s') = {["time"; "display_time"; "price"]} /\
  column "time" s' = [] /\
  column "display_time" s' = [] /\
  column "price" s' = [] /\
  length (column "time" s') = 0%nat.
Proof. cbn. repeat split; reflexivity. Qed.

(** C9: [update_ticker] has no guard on a change of the ticker: when the
    ticker already is the value of the text box, the call leaves the
    ticker as it is and still replaces the data source by three empty
    columns, whatever it held. *)
Theorem update_ticker_same_symbol (s : State) :
  TICKER s = ticker_textbox_value s ->
  let s' := snd (update_ticker s) in
  TICKER s' = TICKER s /\
  data s' = empty_columns /\
  forall name, column name s' = [].
Proof.
  intros H. cbn. repeat split.
  - now rewrite H.
  - intros name. now apply column_empty_columns.
Qed.

(** ** Eviction *)

Lemma increasing_tail (x : option Z) (l : list (option Z)) :
  increasing (x :: l) = true ->
  (exists a, x = Some a) /\ increasing l = true.
Proof.
  destruct x as [a|]; [|discriminate]. intros H. split; [eauto|].
  destruct l as [|[b|] r]; try reflexivity; try discriminate.
  cbn in H. now apply andb_prop in H as [_ H].
Qed.

Lemma increasing_head (a : Z) (l : list (option Z)) :
  increasing (Some a :: l) = true ->
  forall j b, l !! j = Some b -> exists y, b = Some y /\ a < y.
Proof.
  revert a. induction l as [|x r IH]; intros a H j b Hj; [discriminate|].
  destruct x as [c|]; [|discriminate].
  assert (Hac : a < c /\ increasing (Some c :: r) = true).
  { cbn in H. apply andb_prop in H as [H1 H2]. split; [lia|exact H2]. }
  destruct Hac as [Hac Hr]. destruct j as [|j].
  - injection Hj as <-. eauto.
  - destruct (IH c Hr j b Hj) as (y & -> & Hy). exists y. split; [easy|lia].
Qed.

Lemma increasing_lookup (l : list (option Z)) (i j : nat) (a b : option Z) :
  increasing l = true -> (i < j)%nat ->
  l !! i = Some a -> l !! j = Some b ->
  exists x y, a = Some x /\ b = Some y /\ x < y.
Proof.
  revert i j. induction l as [|x r IH]; intros i j H Hij Hi Hj; [discriminate|].
  destruct (increasing_tail _ _ H) as [[c ->] Hr].
  destruct i as [|i].
  - injection Hi as <-. destruct j as [|j]; [lia|].
    destruct (increasing_head _ _ H j b Hj) as (y & -> & Hy). eauto.
  - destruct j as [|j]; [lia|].
    apply (IH i j Hr); [lia|assumption..].
Qed.

(** C5: from an empty buffer and a ticker that is not the empty string,
    if 3600 + 5 ticks in a row all return and the times they fetched are
    strictly increasing instants, then each column has 3600 entries, which
    are the last 3600 of the 3605 fetched, in the order fetched, and none
    of the first five times fetched is in the time column any more. *)
Theorem rollover_evicts_oldest (s s' : State) (name : string) :
  data s = empty_columns ->
  TICKER s <> EmptyString ->
  ticks W (3600 + 5) s = (Ok tt, s') ->
  increasing (quote_instant <$> quotes W (3600 + 5) s) = true ->
  is_column name ->
  let qs := quotes W (3600 + 5) s in
  length qs = (3600 + 5)%nat /\
  length (column name s') = 3600%nat /\
  column name s' = component name <$> drop 5 qs /\
  forall q, q ∈ take 5 qs -> component "time" q ∉ column "time" s'.
Proof.
  intros Hd _ Hk Hinc Hn qs.
  assert (Hcol : forall nm, is_column nm ->
            length qs = (3600 + 5)%nat /\
            column nm s' = component nm <$> drop 5 qs).
  { intros nm Hnm.
    destruct (ticks_columns _ nm Hnm s s' Hk) as [Hl Hc].
    - rewrite (column_empty_columns nm s Hd). cbn. lia.
    - split; [exact Hl|].
      rewrite Hc, (column_empty_columns nm s Hd). cbn [app].
      rewrite (lastn_snoc_drop 3600 5) by (rewrite length_fmap; exact Hl).
      now rewrite fmap_drop. }
  destruct (Hcol name Hn) as [Hl Hc].
  split; [exact Hl|]. split; [|split; [exact Hc|]].
  - rewrite Hc, length_fmap, length_drop, Hl. reflexivity.
  - intros q Hq Hin.
    destruct (Hcol "time" (or_introl eq_refl)) as [_ Ht].
    rewrite Ht in Hin.
    apply list_elem_of_fmap in Hin as (q' & Heq & Hq').
    apply list_elem_of_lookup in Hq as [i Hi].
    apply list_elem_of_lookup in Hq' as [j Hj].
    assert (Hi5 : (i < 5)%nat).
    { apply lookup_lt_Some in Hi. rewrite length_take in Hi. lia. }
    rewrite lookup_take_lt in Hi by exact Hi5.
    rewrite lookup_drop in Hj.
    destruct (increasing_lookup (quote_instant <$> qs) i (5 + j)
                (quote_instant q) (quote_instant q') Hinc) as (x & y & Hx & Hy & Hxy).
    + lia.
    + now rewrite list_lookup_fmap, Hi.
    + now rewrite list_lookup_fmap, Hj.
    + unfold quote_instant in Hx, Hy. unfold component in Heq. cbn in Heq.
      rewrite Heq, Hy in Hx. injection Hx as ->. lia.
Qed.

End Properties.

(* ===================================================================== *)
(** * The calendar *)
(* ===================================================================== *)

Module CalendarFacts.
Import Calendar.

(** [f] holds of the [n] numbers from [z] on *)
Fixpoint all_from (n : nat) (z : Z) (f : Z -> bool) : bool :=
  match n with
  | O => true
  | S n' => f z && all_from n' (z + 1) f
  end.

Lemma all_from_spec (n : nat) (f : Z -> bool) (z : Z) :
  all_from n z f = true -> forall x, z <= x < z + Z.of_nat n -> f x = true.
Proof.
  revert z. induction n as [|n IH]; intros z H x Hx; [lia|].
  cbn [all_from] in H. apply andb_prop in H as [H1 H2].
  destruct (Z.eq_dec x z) as [->|Hne]; [exact H1|].
  apply (IH (z + 1)); [exact H2|lia].
Qed.

(** what a day of the era has to satisfy: the year of the era, the day
    of the year and the month index are in range, and the day exists in
    its month *)
Definition doe_ok (doe : Z) : bool :=
  let yoe := yoe_of_doe doe in
  let doy := doy_of_doe doe in
  let mp := (5 * doy + 2) / 153 in
  let d := doy - (153 * mp + 2) / 5 + 1 in
  let m := if mp <? 10 then mp + 3 else mp - 9 in
  let y := if m <=? 2 then yoe + 1 else yoe in
  (0 <=? yoe) && (yoe <=? 399) && (0 <=? doy) && (doy <=? 365)
  && (0 <=? mp) && (mp <=? 11) && (1 <=? d) && (d <=? days_in_month y m)
  && ((doe <? 306) || (1 <=? y)) && ((146036 <? doe) || (y <=? 399)).

Lemma doe_ok_all : all_from (Z.to_nat 146097) 0 doe_ok = true.
Proof. vm_cast_no_check (eq_refl true). Qed.

Lemma doe_ok_spec (doe : Z) : 0 <= doe < 146097 -> doe_ok doe = true.
Proof.
  intros H. apply (all_from_spec _ _ 0 doe_ok_all).
  rewrite Z2Nat.id; lia.
Qed.

Lemma is_leap_era (y era : Z) : is_leap (y + era * 400) = is_leap y.
Proof.
  unfold is_leap.
  replace ((y + era * 400) mod 4) with (y mod 4) by lia.
  replace ((y + era * 400) mod 100) with (y mod 100) by lia.
  replace ((y + era * 400) mod 400) with (y mod 400) by lia.
  reflexivity.
Qed.

Lemma days_in_month_era (y era m : Z) :
  days_in_month (y + era * 400) m = days_in_month y m.
Proof. unfold days_in_month. now rewrite is_leap_era. Qed.

(** A day number and the date it falls on determine each other. *)
Lemma days_from_civil_from_days (z : Z) :
  days_from_civil (civil_from_days z) = z.
Proof.
  unfold civil_from_days, days_from_civil.
  set (era := (z + 719468) / 146097).
  set (doe := z + 719468 - era * 146097).
  assert (Hdoe : 0 <= doe < 146097) by (subst doe era; lia).
  pose proof (doe_ok_spec doe Hdoe) as Hok. unfold doe_ok in Hok.
  unfold doy_of_doe in *.
  set (yoe := yoe_of_doe doe) in *.
  set (doy := doe - (365 * yoe + yoe / 4 - yoe / 100)) in *.
  set (mp := (5 * doy + 2) / 153) in *.
  cbn [year month day].
  destruct (Z.ltb_spec mp 10) as [Hmp|Hmp].
  - destruct (Z.leb_spec (mp + 3) 2) as [?|_]; [lia|].
    destruct (Z.ltb_spec 2 (mp + 3)) as [_|?]; [|lia].
    replace (mp + 3 - 3) with mp by lia.
    replace ((yoe + era * 400) / 400) with era by lia.
    subst doy doe. lia.
  - destruct (Z.leb_spec (mp - 9) 2) as [_|?]; [|lia].
    destruct (Z.ltb_spec 2 (mp - 9)) as [?|_]; [lia|].
    replace (mp - 9 + 9) with mp by lia.
    replace (yoe + era * 400 + 1 - 1) with (yoe + era * 400) by lia.
    replace ((yoe + era * 400) / 400) with era by lia.
    subst doy doe. lia.
Qed.

(** The date of a day from 0001-01-01 to 9999-12-31 is one the
    [datetime] constructor accepts. *)
Lemma civil_from_days_valid (z : Z) :
  -719162 <= z <= 2932896 -> valid_date (civil_from_days z) = true.
Proof.
  intros Hz. unfold civil_from_days, valid_date.
  set (era := (z + 719468) / 146097).
  set (doe := z + 719468 - era * 146097).
  assert (Hdoe : 0 <= doe < 146097) by (subst doe era; lia).
  assert (Hera : 0 <= era <= 24) by (subst era; lia).
  pose proof (doe_ok_spec doe Hdoe) as Hok. unfold doe_ok in Hok.
  set (yoe := yoe_of_doe doe) in *.
  set (doy := doy_of_doe doe) in *.
  set (mp := (5 * doy + 2) / 153) in *.
  set (m := if mp <? 10 then mp + 3 else mp - 9) in *.
  cbn [year month day].
  assert (Hm : 1 <= m <= 12) by (subst m; destruct (mp <? 10) eqn:E; lia).
  assert (Hlo : era = 0 -> 306 <= doe) by (subst doe; lia).
  assert (Hhi : era = 24 -> doe <= 146036) by (subst doe; lia).
  destruct (m <=? 2) eqn:Em.
  - replace (yoe + era * 400 + 1) with (yoe + 1 + era * 400) by lia.
    rewrite days_in_month_era. lia.
  - rewrite days_in_month_era. lia.
Qed.

End CalendarFacts.

Module DatetimeFacts.
Import Calendar Datetime CalendarFacts.

(** The fields of an instant in a zone denote that instant. *)
Lemma instant_fields_of_us (us off : Z) (t : tzinfo) :
  tz_seconds t = off ->
  instant_us (fields_of_us us off (Some t)) = Some us.
Proof.
  intros Ht. unfold instant_us, utcoffset, fields_of_us, wall_seconds.
  cbn. rewrite days_from_civil_from_days, Ht. f_equal. lia.
Qed.

Lemma fields_of_us_time (us off : Z) (t : option tzinfo) :
  let dt := fields_of_us us off t in
  0 <= hour dt < 24 /\ 0 <= minute dt < 60 /\ 0 <= second dt < 60 /\
  0 <= microsecond dt < 1000000.
Proof. unfold fields_of_us. cbn. lia. Qed.

End DatetimeFacts.


(* ===================================================================== *)
(** * Printing a timestamp and reading it back *)
(* ===================================================================== *)

Module TextFacts.
Import Calendar Datetime Text CalendarFacts DatetimeFacts.

Lemma digit_val_digit (n : Z) : 0 <= n <= 9 -> digit_val (digit n) = Some n.
Proof.
  intros H. unfold digit_val, digit.
  rewrite nat_ascii_embedding by lia.
  destruct (Z.leb_spec 48 (Z.of_nat (48 + Z.to_nat n))); [|lia].
  destruct (Z.leb_spec (Z.of_nat (48 + Z.to_nat n)) 57); [|lia].
  cbn. f_equal. lia.
Qed.

Lemma is_digit_digit (n : Z) : 0 <= n <= 9 -> is_digit (digit n) = true.
Proof. intros H. unfold is_digit. now rewrite digit_val_digit. Qed.

Lemma length_digits (k : nat) (n : Z) : length (digits k n) = k.
Proof.
  revert n. induction k as [|k IH]; intros n; [reflexivity|].
  cbn [digits]. rewrite length_app, IH. cbn. lia.
Qed.

Lemma Forall_is_digit_digits (k : nat) (n : Z) :
  Forall (fun a => is_digit a = true) (digits k n).
Proof.
  revert n. induction k as [|k IH]; intros n; [constructor|].
  cbn [digits]. apply Forall_app. split; [apply IH|].
  constructor; [|constructor]. apply is_digit_digit. lia.
Qed.

Lemma read_digits_app (acc : Z) (l1 l2 : list ascii) :
  read_digits acc (l1 ++ l2) = v ← read_digits acc l1; read_digits v l2.
Proof.
  revert acc. induction l1 as [|a l1 IH]; intros acc; [reflexivity|].
  cbn. destruct (digit_val a); [apply IH|reflexivity].
Qed.

Lemma read_digits_digits (k : nat) (n acc : Z) :
  0 <= n < 10 ^ Z.of_nat k ->
  read_digits acc (digits k n) = Some (acc * 10 ^ Z.of_nat k + n).
Proof.
  revert n acc. induction k as [|k IH]; intros n acc Hn.
  - cbn in *. f_equal. lia.
  - cbn [digits]. rewrite read_digits_app.
    rewrite Nat2Z.inj_succ, Z.pow_succ_r in * by lia.
    rewrite IH by lia. cbn.
    rewrite digit_val_digit by lia. cbn. f_equal. lia.
Qed.

Lemma take_digits_digits (k : nat) (n : Z) (rest : list ascii) :
  0 <= n < 10 ^ Z.of_nat k ->
  take_digits k (digits k n ++ rest) = Some (n, rest).
Proof.
  intros Hn. unfold take_digits.
  rewrite decide_True by (rewrite length_app, length_digits; lia).
  rewrite take_app_length' by (symmetry; apply length_digits).
  rewrite drop_app_length' by (symmetry; apply length_digits).
  rewrite read_digits_digits by exact Hn. cbn. do 2 f_equal.
Qed.

Lemma span_digits_app (l s : list ascii) :
  Forall (fun a => is_digit a = true) l ->
  span_digits (l ++ s) = (l ++ (span_digits s).1, (span_digits s).2).
Proof.
  induction 1 as [|a l Ha _ IH]; cbn.
  - now destruct (span_digits s).
  - rewrite Ha, IH. reflexivity.
Qed.

Lemma skip_spaces_replicate (n : nat) (s : list ascii) :
  skip_spaces s = s -> skip_spaces (replicate n " "%char ++ s) = s.
Proof. intros H. induction n as [|n IH]; [exact H|exact IH]. Qed.

Lemma skip_spaces_digits (k : nat) (n : Z) (rest : list ascii) :
  skip_spaces (digits (S k) n ++ rest) = digits (S k) n ++ rest.
Proof.
  pose proof (Forall_is_digit_digits (S k) n) as HF.
  destruct (digits (S k) n) as [|a l] eqn:E.
  - apply (f_equal length) in E. rewrite length_digits in E. discriminate.
  - inversion HF as [|? ? Ha _]; subst. cbn.
    assert (Hs : is_space a = false).
    { unfold is_digit, digit_val in Ha. unfold is_space.
      destruct a as [[] [] [] [] [] [] [] []]; try reflexivity; discriminate. }
    now rewrite Hs.
Qed.

Import Pandas Dateutil.

Lemma tz_seconds_of_offset (off : Z) : tz_seconds (tz_of_offset off) = off.
Proof. unfold tz_of_offset. destruct (Z.eqb_spec off 0); cbn; lia. Qed.

Lemma parse_offset_iso (off : Z) :
  off mod 60 = 0 -> -86400 < off < 86400 ->
  parse_offset (iso_offset off) = Some (Some (tz_of_offset off)).
Proof.
  intros Hm Hb. unfold iso_offset.
  replace (Z.abs off mod 60 =? 0) with true by (symmetry; apply Z.eqb_eq; lia).
  rewrite app_nil_r.
  assert (Hh : 0 <= Z.abs off / 3600 < 10 ^ Z.of_nat 2) by (cbn; lia).
  assert (Hmi : 0 <= Z.abs off mod 3600 / 60 < 10 ^ Z.of_nat 2) by (cbn; lia).
  destruct (Z.ltb_spec off 0) as [Hn|Hp]; cbn [chars list_ascii_of_string app];
    cbn [parse_offset Ascii.eqb Bool.eqb mbind option_bind];
    rewrite (take_digits_digits 2 _ _ Hh); cbn [mbind option_bind expect chars
      list_ascii_of_string app Ascii.eqb Bool.eqb];
    rewrite <- (app_nil_r (digits 2 (Z.abs off mod 3600 / 60)));
    rewrite (take_digits_digits 2 _ _ Hmi); cbn [mbind option_bind];
    do 3 f_equal; lia.
Qed.

Lemma iso_offset_head (off : Z) :
  exists c r, iso_offset off = c :: r /\ is_digit c = false /\ c <> "."%char.
Proof.
  unfold iso_offset. destruct (off <? 0); cbn; eexists _, _;
    (split; [reflexivity|split; [reflexivity|discriminate]]).
Qed.

Lemma parse_fraction_iso (us nano : Z) (rest : list ascii) :
  0 <= us < 1000000 -> 0 <= nano < 1000 ->
  (exists c r, rest = c :: r /\ is_digit c = false /\ c <> "."%char) ->
  parse_fraction (iso_fraction us nano ++ rest) = Some (us, rest).
Proof.
  intros Hus Hn (c & r & -> & Hc & Hdot).
  assert (Hsp : span_digits (c :: r) = ([], c :: r)) by (cbn; now rewrite Hc).
  assert (H6 : 0 <= us < 10 ^ Z.of_nat 6) by (cbn; lia).
  unfold iso_fraction, iso_micro.
  destruct (Z.eqb_spec nano 0) as [_|_]; [destruct (Z.eqb_spec us 0) as [->|_]|].
  - cbn. destruct c as [[] [] [] [] [] [] [] []]; try reflexivity.
    now contradict Hdot.
  - cbn [chars list_ascii_of_string app parse_fraction].
    rewrite span_digits_app, Hsp by apply Forall_is_digit_digits.
    cbn [fst snd]. rewrite app_nil_r.
    destruct (digits 6 us) as [|a l] eqn:E.
    { apply (f_equal length) in E. now rewrite length_digits in E. }
    rewrite <- E. rewrite take_app_length' by (symmetry; apply length_digits).
    rewrite read_digits_digits by exact H6. cbn. do 2 f_equal.
  - cbn [chars list_ascii_of_string app parse_fraction].
    rewrite <- app_assoc.
    rewrite span_digits_app by apply Forall_is_digit_digits.
    rewrite span_digits_app, Hsp by apply Forall_is_digit_digits.
    cbn [fst snd]. rewrite app_nil_r.
    destruct (digits 6 us ++ digits 3 nano) as [|a l] eqn:E.
    { apply (f_equal length) in E. now rewrite length_app, !length_digits in E. }
    rewrite <- E, <- !app_assoc.
    rewrite take_app_length' by (symmetry; apply length_digits).
    rewrite read_digits_digits by exact H6. cbn. do 2 f_equal.
Qed.

Lemma days_in_month_le (y m : Z) : days_in_month y m <= 31.
Proof.
  unfold days_in_month.
  destruct (m =? 2); [destruct (is_leap y); lia|].
  destruct ((m =? 4) || (m =? 6) || (m =? 9) || (m =? 11)); lia.
Qed.

(** The days of the timestamps that pandas can hold are days that the
    [datetime] constructor accepts. *)
Lemma timestamp_date_valid (ns off : Z) (t : option tzinfo) :
  - int64_max <= ns <= int64_max -> -86400 < off < 86400 ->
  valid_date (dt_date (fields_of_us (ns / 1000) off t)) = true.
Proof.
  intros Hns Hoff. unfold fields_of_us. cbn [dt_date].
  apply civil_from_days_valid. unfold int64_max in Hns. lia.
Qed.

Lemma parse_fields_timestamp (n : nat) (ns off : Z) :
  - int64_max <= ns <= int64_max ->
  off mod 60 = 0 -> -86400 < off < 86400 ->
  parse_fields (replicate n " "%char ++ timestamp_chars ns off) =
  Some (fields_of_us (ns / 1000) off (Some (tz_of_offset off))).
Proof.
  intros Hns Hm Hoff. unfold timestamp_chars.
  pose proof (timestamp_date_valid ns off (Some (tzoffset off)) Hns Hoff) as Hv.
  pose proof (fields_of_us_time (ns / 1000) off (Some (tzoffset off))) as Ht.
  cbv zeta in Ht.
  change (fields_of_us (ns / 1000) off (Some (tz_of_offset off))) with
    (mkdatetime (dt_date (fields_of_us (ns / 1000) off (Some (tzoffset off))))
                (hour (fields_of_us (ns / 1000) off (Some (tzoffset off))))
                (minute (fields_of_us (ns / 1000) off (Some (tzoffset off))))
                (second (fields_of_us (ns / 1000) off (Some (tzoffset off))))
                (microsecond (fields_of_us (ns / 1000) off (Some (tzoffset off))))
                (Some (tz_of_offset off))).
  generalize dependent (fields_of_us (ns / 1000) off (Some (tzoffset off))).
  intros dt Hv Ht. destruct dt as [[y m d] hh mi ss us t].
  cbn [dt_date hour minute second microsecond] in *.
  unfold valid_date in Hv. cbn [year month day] in Hv.
  pose proof (days_in_month_le y m) as Hdim.
  unfold parse_fields, iso_date, iso_hms. cbn [year month day hour minute second].
  rewrite <- !app_assoc.
  rewrite skip_spaces_replicate by apply (skip_spaces_digits 3).
  rewrite take_digits_digits by (cbn; lia).
  cbn [mbind option_bind chars list_ascii_of_string app expect Ascii.eqb Bool.eqb].
  rewrite take_digits_digits by (cbn; lia).
  cbn [mbind option_bind chars list_ascii_of_string app expect Ascii.eqb Bool.eqb].
  rewrite take_digits_digits by (cbn; lia).
  cbn [mbind option_bind chars list_ascii_of_string app expect Ascii.eqb Bool.eqb].
  rewrite take_digits_digits by (cbn; lia).
  cbn [mbind option_bind chars list_ascii_of_string app expect Ascii.eqb Bool.eqb].
  rewrite take_digits_digits by (cbn; lia).
  cbn [mbind option_bind chars list_ascii_of_string app expect Ascii.eqb Bool.eqb].
  rewrite take_digits_digits by (cbn; lia).
  cbn [mbind option_bind].
  rewrite parse_fraction_iso by (try lia; apply iso_offset_head).
  cbn [mbind option_bind].
  rewrite parse_offset_iso by assumption.
  reflexivity.
Qed.

Lemma chars_append (s1 s2 : string) :
  chars (s1 ++ s2)%string = chars s1 ++ chars s2.
Proof.
  unfold chars. induction s1 as [|a s1 IH]; [reflexivity|].
  simpl. f_equal. exact IH.
Qed.

Lemma chars_str (l : list ascii) : chars (str l) = l.
Proof. apply list_ascii_of_string_of_list_ascii. Qed.

(** The text of a column of one row is the label 0, three spaces, and
    the value. *)
Lemma to_string_single (v : string) :
  Pandas.to_string [v] = ("0   " ++ v)%string.
Proof.
  unfold Pandas.to_string, pad_left, max_width. cbn [length].
  change ((fun i : nat => pretty i) <$> seq 0 1) with ["0"%string].
  cbn [zip_with join_lines foldr].
  rewrite !Nat.max_0_r, !Nat.sub_diag. reflexivity.
Qed.

(** Reading back the text of a column of one timestamp in range, without
    its first character, gives the wall clock reading of the timestamp
    with its offset. *)
Lemma parse_timestamp (ns off : Z) :
  - int64_max <= ns <= int64_max ->
  off mod 60 = 0 -> -86400 < off < 86400 ->
  Dateutil.parse (Py.str_from_1 (Pandas.to_string [timestamp_str ns off])) =
  Ok (fields_of_us (ns / 1000) off (Some (tz_of_offset off))).
Proof.
  intros Hns Hm Hoff. rewrite to_string_single.
  unfold Dateutil.parse, timestamp_str.
  change (Py.str_from_1 ("0   " ++ str (timestamp_chars ns off))%string) with
    ("   " ++ str (timestamp_chars ns off))%string.
  rewrite chars_append, chars_str.
  change (chars "   ") with (replicate 3 " "%char).
  rewrite parse_fields_timestamp by assumption.
  unfold valid.
  rewrite (timestamp_date_valid ns off _ Hns Hoff).
  pose proof (fields_of_us_time (ns / 1000) off (Some (tz_of_offset off))) as Ht.
  cbv zeta in Ht.
  replace (_ && _) with true; [reflexivity|]. symmetry.
  repeat (apply andb_true_intro; split); try reflexivity;
    first [apply Z.leb_le | apply Z.ltb_lt]; lia.
Qed.

End TextFacts.

(* ===================================================================== *)
(** * The fetch *)
(* ===================================================================== *)

Section Fetch.

Variable W : World.

Lemma to_datetime_ms_dtype (c c' : Pandas.column) :
  to_datetime_ms W c = Ok c' ->
  exists ts, c' = Pandas.Datetime64 ts /\ forallb Pandas.in_bounds ts = true.
Proof.
  unfold to_datetime_ms, result_bind.
  destruct (match c with Pandas.Int64 l => _ | _ => _ end) as [ts|e];
    [|discriminate].
  destruct (forallb Pandas.in_bounds ts) eqn:E; [|discriminate].
  intros [= <-]. eauto.
Qed.

(** [get_last_price] sends one request, logs it, and returns what
    [quote_of_frame] makes of the parsed answer. *)
Lemma get_last_price_eq (s : State) :
  get_last_price W s =
  (result_bind (http_get W (length (log s)) (request_for (TICKER s)))
     (fun raw => result_bind (read_csv W raw ",") (quote_of_frame W)),
   logged s (EvGet (request_for (TICKER s)))).
Proof.
  cbv [get_last_price bind lift get_TICKER requests_get emit ret].
  fold (request_for (TICKER s)).
  fold (logged s (EvGet (request_for (TICKER s)))).
  destruct (http_get W _ _) as [raw|e]; [|reflexivity]. cbn [result_bind].
  destruct (read_csv W raw ",") as [df|e]; [|reflexivity]. cbn [result_bind].
  unfold quote_of_frame.
  destruct (Pandas.getitem df "time") as [col|e]; [|reflexivity].
  cbn [result_bind].
  destruct (to_datetime_ms W col) as [col'|e] eqn:E; [|reflexivity].
  destruct (to_datetime_ms_dtype _ _ E) as (ts & -> & _).
  cbn [result_bind]. unfold Pandas.getitem.
  repeat first [ rewrite lookup_insert_eq
               | progress cbn [tz_localize tz_convert to_string dt_strftime] ].
  destruct (Dateutil.parse _) as [time|e]; [|reflexivity].
  repeat first [ rewrite lookup_insert_eq
               | progress cbn [tz_localize tz_convert to_string dt_strftime] ].
  rewrite !lookup_insert_ne by discriminate.
  cbn [result_bind].
  destruct (df !! "price") as [price|]; [|reflexivity].
  cbn [result_bind].
  destruct (series_float W price); reflexivity.
Qed.

Lemma result_all_length {A} (l : list (result A)) (l' : list A) :
  result_all l = Ok l' -> length l' = length l.
Proof.
  revert l'. induction l as [|[a|e] l IH]; intros l' H; cbn in H.
  - now injection H as <-.
  - destruct (result_all l) as [l0|e]; [|discriminate].
    injection H as <-. cbn. now rewrite (IH l0).
  - discriminate.
Qed.

Lemma to_datetime_ms_length (c : Pandas.column) (ts : list (option Z)) :
  to_datetime_ms W c = Ok (Pandas.Datetime64 ts) ->
  length ts = Pandas.col_len c.
Proof.
  unfold to_datetime_ms, result_bind.
  destruct (match c with Pandas.Int64 l => _ | _ => _ end) as [ts'|e] eqn:E;
    [|discriminate].
  destruct (forallb Pandas.in_bounds ts'); [|discriminate].
  intros [= <-].
  destruct c; apply result_all_length in E;
    rewrite E, ?length_fmap, ?length_seq; reflexivity.
Qed.

Lemma series_float_len (c : Pandas.column) (f : float) :
  series_float W c = Ok f -> Pandas.col_len c = 1%nat.
Proof.
  unfold series_float. destruct (Nat.eqb_spec (Pandas.col_len c) 1); cbn;
    [auto|discriminate].
Qed.

(** what a fetch that returns went through *)
Lemma quote_of_frame_ok (df : Pandas.DataFrame) (q : pyval * pyval * pyval) :
  quote_of_frame W df = Ok q ->
  exists tcol ts time pcol f,
    df !! "time" = Some tcol /\
    to_datetime_ms W tcol = Ok (Pandas.Datetime64 ts) /\
    forallb Pandas.in_bounds ts = true /\
    Dateutil.parse
      (Py.str_from_1 (Pandas.to_string (stamp_str W set_timezone <$> ts)))
    = Ok time /\
    df !! "price" = Some pcol /\
    series_float W pcol = Ok f /\
    q = (VDatetime time, VSeries (display_of W ts), VFloat f).
Proof.
  unfold quote_of_frame, Pandas.getitem.
  destruct (df !! "time") as [tcol|]; [|discriminate]. cbn [result_bind].
  destruct (to_datetime_ms W tcol) as [c|e] eqn:E; [|discriminate].
  destruct (to_datetime_ms_dtype _ _ E) as (ts & -> & Hb). cbn [result_bind].
  destruct (Dateutil.parse _) as [time|e] eqn:Ep; [|discriminate].
  cbn [result_bind].
  destruct (df !! "price") as [pcol|]; [|discriminate]. cbn [result_bind].
  destruct (series_float W pcol) as [f|e] eqn:Ef; [|discriminate].
  intros [= <-]. exists tcol, ts, time, pcol, f. repeat split; assumption.
Qed.

Lemma get_last_price_ok (s s1 : State) (q : pyval * pyval * pyval) :
  get_last_price W s = (Ok q, s1) ->
  exists raw df,
    http_get W (length (log s)) (request_for (TICKER s)) = Ok raw /\
    read_csv W raw "," = Ok df /\
    quote_of_frame W df = Ok q.
Proof.
  rewrite get_last_price_eq. intros [= H _].
  destruct (http_get W _ _) as [raw|e]; [|discriminate].
  cbn [result_bind] in H.
  destruct (read_csv W raw ",") as [df|e] eqn:E; [|discriminate].
  cbn [result_bind] in H. eauto.
Qed.

(** C10: when the parsed answer to the request has a number of rows
    other than one, [get_last_price] raises instead of returning a triple;
    so a fetch that returns had an answer of exactly one row. *)
Theorem fetch_needs_one_row (s : State) (raw : string)
        (df : Pandas.DataFrame) (n : nat) :
  http_get W (length (log s)) (request_for (TICKER s)) = Ok raw ->
  read_csv W raw "," = Ok df ->
  Pandas.frame_rows df n ->
  n <> 1%nat ->
  exists e, fst (get_last_price W s) = Raise e.
Proof.
  intros Hh Hr Hn Hne.
  destruct (get_last_price W s) as [[q|e] s1] eqn:E; [|cbn; eauto].
  exfalso.
  destruct (get_last_price_ok _ _ _ E) as (raw' & df' & Hh' & Hr' & Hq).
  rewrite Hh in Hh'. injection Hh' as <-.
  rewrite Hr in Hr'. injection Hr' as <-.
  destruct (quote_of_frame_ok _ _ Hq) as (_ & _ & _ & pcol & f & _ & _ & _ & _ & Hp & Hf & _).
  apply series_float_len in Hf.
  specialize (Hn "price" pcol Hp). cbn in Hn. congruence.
Qed.

Lemma new_quote_fetch (s : State) :
  TICKER s <> EmptyString -> new_quote W s = get_last_price W s.
Proof.
  intros Ht. cbv [new_quote bind get_TICKER].
  destruct (String.eqb_spec EmptyString (TICKER s)) as [E|_];
    [congruence|reflexivity].
Qed.

Lemma new_quote_placeholder (s : State) :
  TICKER s = EmptyString ->
  new_quote W s =
  (Ok (VDatetime (astimezone W (utcnow_us W (length (log s))) set_timezone),
       VDatetime (astimezone W (utcnow_us W (S (length (log s)))) set_timezone),
       VFloat 0%float),
   logged (logged s EvNow) EvNow).
Proof.
  intros Ht. cbv [new_quote bind get_TICKER init datetime_now_utc emit ret].
  rewrite Ht. cbn [String.eqb log]. rewrite length_app. cbn [length].
  rewrite Nat.add_1_r. unfold logged. now rewrite Ht.
Qed.

(** C8: a tick with a ticker [t] that is not the empty string sends
    exactly one request, whether it then returns or raises and whatever was
    sent before: a GET of https://ws-api.iextrading.com/1.0/tops/last with
    the parameters format=csv and symbols=t and no timeout.  The body of
    the answer is read as CSV with the separator ",", and a fetch that
    returns found the columns time and price in it. *)
Theorem tick_fetches_once (s : State) :
  TICKER s <> EmptyString ->
  let req := mkRequest "https://ws-api.iextrading.com/1.0/tops/last"
                       [("format", "csv"); ("symbols", TICKER s)] None in
  log (snd (update_price W s)) = log s ++ [EvGet req] /\
  log (snd (get_last_price W s)) = log s ++ [EvGet req] /\
  fst (get_last_price W s) =
    result_bind (http_get W (length (log s)) req)
      (fun raw => result_bind (read_csv W raw ",") (quote_of_frame W)) /\
  forall q, fst (get_last_price W s) = Ok q ->
    exists raw df,
      http_get W (length (log s)) req = Ok raw /\
      read_csv W raw "," = Ok df /\
      is_Some (df !! "time") /\ is_Some (df !! "price").
Proof.
  intros Ht req.
  assert (Hg : log (snd (get_last_price W s)) = log s ++ [EvGet req])
    by now rewrite get_last_price_eq.
  split; [|split; [exact Hg|split]].
  - rewrite update_price_unfold. unfold bind. rewrite new_quote_fetch by exact Ht.
    destruct (get_last_price W s) as [[q|e] s1]; [|exact Hg].
    cbn in Hg. unfold data_stream.
    destruct (Bokeh.stream _ _ _); exact Hg.
  - now rewrite get_last_price_eq.
  - intros q Hq.
    destruct (get_last_price W s) as [r s1] eqn:E. cbn in Hq. subst r.
    destruct (get_last_price_ok _ _ _ E) as (raw & df & Hh & Hr & Hf).
    destruct (quote_of_frame_ok _ _ Hf)
      as (tcol & _ & _ & pcol & _ & Htc & _ & _ & _ & Hpc & _).
    exists raw, df. repeat split; eauto.
Qed.

Lemma parse_nat_fails :
  Dateutil.parse (Py.str_from_1 (Pandas.to_string ["NaT"%string])) =
  Raise DateParseError.
Proof. reflexivity. Qed.

(** A fetch that returns, on a frame with one length for all columns,
    had one row with a timestamp, and the time it returns is the wall
    clock reading of that timestamp in US/Eastern. *)
Lemma quote_of_frame_one_row (df : Pandas.DataFrame) (n : nat)
      (q : pyval * pyval * pyval) :
  tz_sane W ->
  Pandas.frame_rows df n ->
  quote_of_frame W df = Ok q ->
  exists tcol ns f,
    df !! "time" = Some tcol /\
    to_datetime_ms W tcol = Ok (Pandas.Datetime64 [Some ns]) /\
    q = (VDatetime
           (Datetime.fields_of_us (ns / 1000)
              (zone_offset W set_timezone (ns / 1000000000))
              (Some (Dateutil.tz_of_offset
                       (zone_offset W set_timezone (ns / 1000000000))))),
         VSeries (display_of W [Some ns]), VFloat f).
Proof.
  intros Htz Hn Hq.
  destruct (quote_of_frame_ok _ _ Hq)
    as (tcol & ts & time & pcol & f & Htc & Hts & Hb & Hp & Hpc & Hf & ->).
  apply series_float_len in Hf.
  pose proof (to_datetime_ms_length _ _ Hts) as Hlen.
  rewrite (Hn _ _ Htc), <- (Hn _ _ Hpc), Hf in Hlen.
  destruct ts as [|[ns|] [|? ?]]; try (cbn in Hlen; discriminate Hlen).
  - cbn [fmap list_fmap stamp_str] in Hp.
    cbn in Hb. rewrite andb_true_r in Hb. apply andb_prop in Hb as [Hb1 Hb2].
    destruct (Htz set_timezone (ns / 1000000000)) as [Hm Ho].
    rewrite TextFacts.parse_timestamp in Hp by (try assumption; lia).
    injection Hp as <-. exists tcol, ns, f. repeat split; assumption.
  - cbn [fmap list_fmap stamp_str] in Hp. rewrite parse_nat_fails in Hp.
    discriminate.
Qed.

Lemma to_datetime_ms_int64_one (l : list Z) (ns : Z) :
  to_datetime_ms W (Pandas.Int64 l) = Ok (Pandas.Datetime64 [Some ns]) ->
  exists ms, l = [ms] /\ ns = ms * 1000000.
Proof.
  intros H. pose proof (to_datetime_ms_length _ _ H) as Hlen.
  destruct l as [|ms [|? ?]]; try discriminate Hlen.
  exists ms. split; [reflexivity|].
  unfold to_datetime_ms, Pandas.ms_to_ns_all, Pandas.ms_to_ns in H.
  cbn [fmap list_fmap result_all result_bind] in H.
  destruct (ms =? Pandas.int64_min); [discriminate|].
  destruct (_ && _); [|discriminate].
  cbn in H. destruct (_ && _) in H; [|discriminate].
  now injection H as <-.
Qed.

(** C7: for a fetch that returns on an answer whose time column holds
    int64 milliseconds since the epoch, the column has one row [ms], and
    the time returned is an aware datetime that denotes the instant [ms]
    milliseconds after the epoch: it is the wall clock reading of that
    instant in US/Eastern, with the offset of US/Eastern at that instant. *)
Theorem fetch_time_instant (s s1 : State) (q : pyval * pyval * pyval)
        (raw : string) (df : Pandas.DataFrame) (n : nat) (l : list Z) :
  tz_sane W ->
  http_get W (length (log s)) (request_for (TICKER s)) = Ok raw ->
  read_csv W raw "," = Ok df ->
  Pandas.frame_rows df n ->
  df !! "time" = Some (Pandas.Int64 l) ->
  get_last_price W s = (Ok q, s1) ->
  exists ms d,
    l = [ms] /\
    q.1.1 = VDatetime d /\
    Datetime.instant_us d = Some (ms * 1000) /\
    Datetime.utcoffset d = Some (zone_offset W "US/Eastern" (ms / 1000)) /\
    d = Datetime.fields_of_us (ms * 1000)
          (zone_offset W "US/Eastern" (ms / 1000))
          (Some (Dateutil.tz_of_offset (zone_offset W "US/Eastern" (ms / 1000)))).
Proof.
  intros Htz Hh Hr Hn Hl Hg.
  destruct (get_last_price_ok _ _ _ Hg) as (raw' & df' & Hh' & Hr' & Hq).
  rewrite Hh in Hh'. injection Hh' as <-.
  rewrite Hr in Hr'. injection Hr' as <-.
  destruct (quote_of_frame_one_row _ _ _ Htz Hn Hq)
    as (tcol & ns & f & Htc & Hts & ->).
  rewrite Hl in Htc. injection Htc as <-.
  destruct (to_datetime_ms_int64_one _ _ Hts) as (ms & -> & ->).
  replace (ms * 1000000 / 1000) with (ms * 1000) by lia.
  replace (ms * 1000000 / 1000000000) with (ms / 1000) by lia.
  exists ms. eexists. split; [reflexivity|]. split; [reflexivity|].
  change set_timezone with "US/Eastern"%string.
  split; [|split; [|reflexivity]].
  - apply DatetimeFacts.instant_fields_of_us, TextFacts.tz_seconds_of_offset.
  - unfold Datetime.utcoffset. cbn.
    now rewrite TextFacts.tz_seconds_of_offset.
Qed.

(** C6, as amended: a fetch that returns, on a frame with one length for
    all columns, returns an aware datetime, a pandas Series (not a str)
    whose one element is the str that "%Y-%m-%d %H:%M:%S" formats from
    that datetime, and a float. *)
Theorem fetch_quote_shape (s s1 : State) (q : pyval * pyval * pyval)
        (raw : string) (df : Pandas.DataFrame) (n : nat) :
  tz_sane W ->
  http_get W (length (log s)) (request_for (TICKER s)) = Ok raw ->
  read_csv W raw "," = Ok df ->
  Pandas.frame_rows df n ->
  get_last_price W s = (Ok q, s1) ->
  exists d f,
    q = (VDatetime d,
         VSeries (Pandas.Object [Pandas.OStr (Pandas.strftime_ymd_hms d)]),
         VFloat f) /\
    Datetime.is_aware d = true /\
    is_datetime q.1.1 = true /\
    is_str q.1.2 = false /\
    is_float q.2 = true.
Proof.
  intros Htz Hh Hr Hn Hg.
  destruct (get_last_price_ok _ _ _ Hg) as (raw' & df' & Hh' & Hr' & Hq).
  rewrite Hh in Hh'. injection Hh' as <-.
  rewrite Hr in Hr'. injection Hr' as <-.
  destruct (quote_of_frame_one_row _ _ _ Htz Hn Hq)
    as (tcol & ns & f & _ & _ & ->).
  exists (Datetime.fields_of_us (ns / 1000)
            (zone_offset W set_timezone (ns / 1000000000))
            (Some (Dateutil.tz_of_offset
                     (zone_offset W set_timezone (ns / 1000000000))))), f.
  repeat split; reflexivity.
Qed.

(** C4: with the empty string as ticker, a tick returns without a
    request: it reads the clock twice and puts at the end of the columns
    time, display_time and price the first reading in US/Eastern, the
    second reading in US/Eastern, and 0.0; the datetime in the time column
    denotes the instant of the first reading.  From an empty buffer each
    column then holds exactly that one entry. *)
Theorem placeholder_tick (s : State) :
  TICKER s = EmptyString ->
  dom (data s) = dom empty_columns ->
  let now := utcnow_us W (length (log s)) in
  let t := astimezone W now set_timezone in
  let d := astimezone W (utcnow_us W (S (length (log s)))) set_timezone in
  let s' := snd (update_price W s) in
  fst (update_price W s) = Ok tt /\
  log s' = log s ++ [EvNow; EvNow] /\
  column "time" s' = Py.lastn 3600 (column "time" s ++ [VDatetime t]) /\
  column "display_time" s' =
    Py.lastn 3600 (column "display_time" s ++ [VDatetime d]) /\
  column "price" s' = Py.lastn 3600 (column "price" s ++ [VFloat 0%float]) /\
  Datetime.instant_us t = Some now /\
  Datetime.tz t =
    Some (Datetime.pytz_zone "US/Eastern"
            (zone_offset W "US/Eastern" (now / 1000000))) /\
  (data s = empty_columns ->
   column "time" s' = [VDatetime t] /\
   column "display_time" s' = [VDatetime d] /\
   column "price" s' = [VFloat 0%float]).
Proof.
  intros Ht Hd now t d s'.
  pose proof (new_quote_placeholder s Ht) as Hq.
  fold now t d in Hq.
  destruct (stream_new_data_ok (VDatetime t, VDatetime d, VFloat 0%float)
              (data s) Hd) as [D HD].
  assert (Hu : update_price W s =
               (Ok tt, mkState (TICKER s) (ticker_textbox_value s)
                               (price_plot_title_text s) D
                               (log s ++ [EvNow; EvNow]))).
  { rewrite update_price_unfold. unfold bind. rewrite Hq.
    unfold data_stream. cbn [data logged]. rewrite HD.
    cbn. now rewrite <- app_assoc. }
  assert (Hc : forall name, is_column name ->
            column name s' =
            Py.lastn 3600
              (column name s
               ++ [component name (VDatetime t, VDatetime d, VFloat 0%float)])).
  { intros name Hn. subst s'. rewrite Hu. unfold column. cbn [snd data].
    apply (stream_column _ _ _ _ _ HD). now apply new_data_component. }
  subst s'. rewrite Hu in *. cbn [fst snd log] in *.
  split; [reflexivity|]. split; [reflexivity|].
  split; [apply (Hc "time"); left; reflexivity|].
  split; [apply (Hc "display_time"); right; left; reflexivity|].
  split; [apply (Hc "price"); right; right; reflexivity|].
  split; [apply DatetimeFacts.instant_fields_of_us; reflexivity|].
  split; [reflexivity|].
  intros He.
  rewrite (Hc "time"), (Hc "display_time"), (Hc "price")
    by (unfold is_column; auto).
  rewrite !(column_empty_columns _ s He). repeat split; reflexivity.
Qed.

End Fetch.

Section FetchTotal.

Variable W : World.

(** On a frame of one row with an int64 time in the range of pandas and a
    float64 price, the fetch returns. *)
Lemma quote_of_frame_total (df : Pandas.DataFrame) (ms : Z) (f : float) :
  tz_sane W ->
  df !! "time" = Some (Pandas.Int64 [ms]) ->
  df !! "price" = Some (Pandas.Float64 [f]) ->
  ms <> Pandas.int64_min ->
  - Pandas.int64_max <= ms * 1000000 <= Pandas.int64_max ->
  quote_of_frame W df =
  Ok (VDatetime
        (Datetime.fields_of_us (ms * 1000)
           (zone_offset W set_timezone (ms / 1000))
           (Some (Dateutil.tz_of_offset
                    (zone_offset W set_timezone (ms / 1000))))),
      VSeries (display_of W [Some (ms * 1000000)]), VFloat f).
Proof.
  intros Htz Ht Hp Hmin Hb.
  unfold quote_of_frame, Pandas.getitem. rewrite Ht, Hp. cbn [result_bind].
  assert (Hts : to_datetime_ms W (Pandas.Int64 [ms]) =
                Ok (Pandas.Datetime64 [Some (ms * 1000000)])).
  { unfold to_datetime_ms, Pandas.ms_to_ns_all, Pandas.ms_to_ns.
    cbn [fmap list_fmap result_all result_bind].
    destruct (Z.eqb_spec ms Pandas.int64_min) as [?|_]; [contradiction|].
    assert (Hin : (- Pandas.int64_max <=? ms * 1000000)
                  && (ms * 1000000 <=? Pandas.int64_max) = true).
    { apply andb_true_intro. split; apply Z.leb_le; lia. }
    rewrite Hin. cbn [result_bind forallb Pandas.in_bounds].
    rewrite Hin. reflexivity. }
  rewrite Hts. cbn [result_bind fmap list_fmap stamp_str].
  destruct (Htz set_timezone (ms * 1000000 / 1000000000)) as [Hm Ho].
  rewrite TextFacts.parse_timestamp by assumption.
  cbn [result_bind]. unfold series_float. cbn.
  replace (ms * 1000000 / 1000) with (ms * 1000) by lia.
  replace (ms * 1000000 / 1000000000) with (ms / 1000) by lia.
  reflexivity.
Qed.

End FetchTotal.

(* ===================================================================== *)
(** * Runs of any length in the mock world *)
(* ===================================================================== *)

Module MockFacts.

Lemma mock_tz_sane : tz_sane Mock.world.
Proof.
  intros zone t. cbn. unfold Demo.zone_offset.
  destruct (String.eqb zone "US/Eastern"); [|cbn; lia].
  destruct (_ && _); cbn; lia.
Qed.

Lemma length_str_replicate (n : nat) (c : ascii) :
  String.length (Text.str (replicate n c)) = n.
Proof. induction n as [|n IH]; [reflexivity|]. simpl. f_equal. exact IH. Qed.

(** the fetch after [n] events, not too many, returns the time
    [n] seconds after the first *)
Lemma mock_fetch (s : State) :
  Z.of_nat (length (log s)) <= 1000000 ->
  exists q,
    get_last_price Mock.world s =
      (Ok q, logged s (EvGet (request_for (TICKER s)))) /\
    quote_instant q = Mock.instant_after (length (log s)).
Proof.
  intros Hn. rewrite get_last_price_eq.
  cbn [http_get Mock.world Mock.http_get read_csv Mock.read_csv result_bind].
  set (ms := Mock.time_of (Text.str (replicate (length (log s)) "."%char))).
  assert (Hms : ms = Demo.t0_ms + 1000 * Z.of_nat (length (log s))).
  { subst ms. unfold Mock.time_of. now rewrite length_str_replicate. }
  rewrite (quote_of_frame_total Mock.world _ ms 1%float mock_tz_sane).
  - eexists. split; [reflexivity|].
    unfold quote_instant. cbn [fst].
    rewrite DatetimeFacts.instant_fields_of_us
      by apply TextFacts.tz_seconds_of_offset.
    unfold Mock.instant_after. now rewrite Hms.
  - reflexivity.
  - reflexivity.
  - rewrite Hms. unfold Demo.t0_ms, Pandas.int64_min. lia.
  - rewrite Hms. unfold Demo.t0_ms, Pandas.int64_max. lia.
Qed.

(** the states in which the mock ticks go on returning *)
Definition ready (s : State) : Prop :=
  TICKER s <> EmptyString /\ dom (data s) = dom empty_columns.

Lemma mock_tick (s : State) :
  ready s -> Z.of_nat (length (log s)) <= 1000000 ->
  exists q s',
    new_quote Mock.world s = (Ok q, logged s (EvGet (request_for (TICKER s)))) /\
    quote_instant q = Mock.instant_after (length (log s)) /\
    update_price Mock.world s = (Ok tt, s') /\
    ready s' /\ length (log s') = S (length (log s)).
Proof.
  intros [Ht Hd] Hn.
  destruct (mock_fetch s Hn) as (q & Hq & Hi).
  destruct (stream_new_data_ok q (data s) Hd) as [D HD].
  exists q. eexists. rewrite new_quote_fetch by exact Ht.
  split; [exact Hq|]. split; [exact Hi|].
  rewrite update_price_unfold. unfold bind.
  rewrite new_quote_fetch, Hq by exact Ht.
  unfold data_stream. cbn [data logged]. rewrite HD.
  split; [reflexivity|]. split; [split|].
  - exact Ht.
  - cbn [data]. destruct (stream_dom _ _ _ _ HD) as [HdD _].
    now rewrite HdD.
  - cbn [log logged]. rewrite length_app. cbn. lia.
Qed.

Lemma mock_ticks (k : nat) (s : State) :
  ready s -> Z.of_nat (length (log s) + k) <= 1000000 ->
  exists s',
    ticks Mock.world k s = (Ok tt, s') /\
    quote_instant <$> quotes Mock.world k s =
    Mock.instant_after <$> seq (length (log s)) k.
Proof.
  revert s. induction k as [|k IH]; intros s Hr Hn.
  - exists s. split; reflexivity.
  - destruct (mock_tick s Hr) as (q & s1 & Hq & Hi & Hu & Hr1 & Hl1); [lia|].
    destruct (IH s1 Hr1) as (s' & Hk & Hqs); [lia|].
    exists s'. rewrite ticks_succ, Hu. split; [exact Hk|].
    cbn [quotes seq fmap list_fmap]. rewrite Hq, Hu.
    cbn [fmap list_fmap]. rewrite Hi. f_equal.
    rewrite Hl1 in Hqs. exact Hqs.
Qed.

Lemma increasing_instants (n k : nat) :
  increasing (Mock.instant_after <$> seq n k) = true.
Proof.
  revert n. induction k as [|k IH]; intros n; [reflexivity|].
  specialize (IH (S n)). cbn [seq fmap list_fmap].
  destruct k as [|k]; [reflexivity|].
  cbn [seq fmap list_fmap] in *. unfold Mock.instant_after at 1 2.
  cbn [increasing]. apply andb_true_intro. split; [apply Z.ltb_lt; lia|].
  exact IH.
Qed.

End MockFacts.

(* ===================================================================== *)
(** * The properties at work in the demo worlds *)
(* ===================================================================== *)

Lemma demo_tz_sane : tz_sane Demo.world.
Proof.
  intros zone t. cbn. unfold Demo.zone_offset.
  destruct (String.eqb zone "US/Eastern"); [|cbn; lia].
  destruct (_ && _); cbn; lia.
Qed.

Lemma aapl_frame_rows : Pandas.frame_rows Demo.aapl_frame 1.
Proof. unfold Pandas.frame_rows. apply (bool_decide_unpack _). vm_compute. exact I. Qed.

Lemma two_frame_rows : Pandas.frame_rows Demo.two_frame 2.
Proof. unfold Pandas.frame_rows. apply (bool_decide_unpack _). vm_compute. exact I. Qed.

Lemma ticks_length_witness :
  length (column "time" (snd (ticks Demo.world 3 Demo.aapl_state))) = Nat.min 3 3600
  /\ TICKER (snd (ticks Demo.world 3 Demo.aapl_state)) = TICKER Demo.aapl_state.
Proof.
  apply (ticks_length Demo.world 3 Demo.aapl_state).
  - reflexivity.
  - discriminate.
  - vm_compute. reflexivity.
  - left. reflexivity.
Defined.

Lemma buffer_bounded_witness :
  (length (column "time" Demo.aapl_state_2) <= 3600)%nat.
Proof.
  apply (buffer_bounded Demo.world).
  exists [Typed "AAPL"; Click; Tick; Tick]. reflexivity.
Defined.

Lemma update_ticker_same_symbol_witness :
  length (column "time" Demo.aapl_state_2) = 2%nat /\
  TICKER (snd (update_ticker Demo.aapl_state_2)) = "AAPL" /\
  data (snd (update_ticker Demo.aapl_state_2)) = empty_columns.
Proof.
  split; [vm_compute; reflexivity|].
  destruct (update_ticker_same_symbol Demo.aapl_state_2) as (H1 & H2 & _).
  - vm_compute. reflexivity.
  - split; [exact H1|exact H2].
Defined.

Lemma placeholder_tick_witness :
  fst (update_price Demo.world initial_state) = Ok tt /\
  log (snd (update_price Demo.world initial_state)) = [EvNow; EvNow] /\
  column "price" (snd (update_price Demo.world initial_state)) = [VFloat 0%float].
Proof.
  destruct (placeholder_tick Demo.world initial_state)
    as (H1 & H2 & _ & _ & _ & _ & _ & H3).
  - reflexivity.
  - reflexivity.
  - split; [exact H1|]. split; [exact H2|].
    destruct (H3 eq_refl) as (_ & _ & H4). exact H4.
Defined.

Lemma rollover_evicts_oldest_witness :
  exists s',
    ticks Mock.world (3600 + 5) Mock.aapl_state = (Ok tt, s') /\
    length (quotes Mock.world (3600 + 5) Mock.aapl_state) = (3600 + 5)%nat /\
    length (column "time" s') = 3600%nat /\
    column "time" s' =
      component "time" <$> drop 5 (quotes Mock.world (3600 + 5) Mock.aapl_state).
Proof.
  destruct (MockFacts.mock_ticks (3600 + 5) Mock.aapl_state) as (s' & Hk & Hq).
  - split; [discriminate|reflexivity].
  - cbn [Mock.aapl_state run fold_left step handle snd set_textbox
           update_ticker initial_state log length].
    rewrite Nat.add_0_l, Nat2Z.inj_add. cbn. lia.
  - exists s'. split; [exact Hk|].
    destruct (rollover_evicts_oldest Mock.world Mock.aapl_state s' "time")
      as (H1 & H2 & H3 & _).
    + reflexivity.
    + discriminate.
    + exact Hk.
    + rewrite Hq. apply MockFacts.increasing_instants.
    + left. reflexivity.
    + split; [exact H1|]. split; [exact H2|exact H3].
Defined.

Lemma fetch_time_instant_witness :
  exists ms d,
    [Demo.t0_ms] = [ms] /\
    Demo.aapl_quote.1.1 = VDatetime d /\
    Datetime.instant_us d = Some (ms * 1000) /\
    Datetime.utcoffset d = Some (zone_offset Demo.world "US/Eastern" (ms / 1000)) /\
    d = Datetime.fields_of_us (ms * 1000)
          (zone_offset Demo.world "US/Eastern" (ms / 1000))
          (Some (Dateutil.tz_of_offset
                   (zone_offset Demo.world "US/Eastern" (ms / 1000)))).
Proof.
  apply (fetch_time_instant Demo.world Demo.aapl_state
           (logged Demo.aapl_state (EvGet (request_for "AAPL")))
           Demo.aapl_quote Demo.aapl_raw Demo.aapl_frame 1 [Demo.t0_ms]).
  - exact demo_tz_sane.
  - vm_compute. reflexivity.
  - vm_compute. reflexivity.
  - exact aapl_frame_rows.
  - vm_compute. reflexivity.
  - vm_compute. reflexivity.
Defined.

Lemma fetch_quote_shape_witness :
  exists d f,
    Demo.aapl_quote =
      (VDatetime d,
       VSeries (Pandas.Object [Pandas.OStr (Pandas.strftime_ymd_hms d)]),
       VFloat f) /\
    Datetime.is_aware d = true /\
    is_datetime Demo.aapl_quote.1.1 = true /\
    is_str Demo.aapl_quote.1.2 = false /\
    is_float Demo.aapl_quote.2 = true.
Proof.
  apply (fetch_quote_shape Demo.world Demo.aapl_state
           (logged Demo.aapl_state (EvGet (request_for "AAPL")))
           Demo.aapl_quote Demo.aapl_raw Demo.aapl_frame 1).
  - exact demo_tz_sane.
  - vm_compute. reflexivity.
  - vm_compute. reflexivity.
  - exact aapl_frame_rows.
  - vm_compute. reflexivity.
Defined.

(** C6 as the specification has it fails: the display time that a fetch
    returns is a pandas Series, not a str. *)
Lemma fetch_display_time_is_series :
  get_last_price Demo.world Demo.aapl_state =
    (Ok Demo.aapl_quote, logged Demo.aapl_state (EvGet (request_for "AAPL"))) /\
  Demo.aapl_quote.1.2 = VSeries (Pandas.Object [Pandas.OStr "2020-04-01 09:30:00"]) /\
  is_str Demo.aapl_quote.1.2 = false.
Proof. split; [vm_compute; reflexivity|]. split; reflexivity. Qed.

Lemma tick_fetches_once_witness :
  log (snd (update_price Demo.world Demo.aapl_state)) =
  [EvGet (mkRequest "https://ws-api.iextrading.com/1.0/tops/last"
                    [("format", "csv"); ("symbols", "AAPL")] None)].
Proof.
  destruct (tick_fetches_once Demo.world Demo.aapl_state) as (H & _).
  - discriminate.
  - exact H.
Defined.

Lemma fetch_needs_one_row_witness :
  exists e, fst (get_last_price Demo.world Demo.two_state) = Raise e.
Proof.
  apply (fetch_needs_one_row Demo.world Demo.two_state Demo.two_raw
           Demo.two_frame 2).
  - vm_compute. reflexivity.
  - vm_compute. reflexivity.
  - exact two_frame_rows.
  - discriminate.
Defined.

(* ===================================================================== *)
(** * Checks by evaluation *)
(* ===================================================================== *)

Example civil_epoch :
  Calendar.civil_from_days 0 = Calendar.mkdate 1970 1 1.
Proof. reflexivity. Qed.

Example civil_leap_day :
  Calendar.civil_from_days 18321 = Calendar.mkdate 2020 2 29.
Proof. reflexivity. Qed.

Example civil_before_epoch :
  Calendar.civil_from_days (-1) = Calendar.mkdate 1969 12 31.
Proof. reflexivity. Qed.

Example del_prefix_short : Py.del_prefix [1; 2; 3] (-5) = [1; 2; 3].
Proof. reflexivity. Qed.

Example del_prefix_long : Py.del_prefix [1; 2; 3; 4; 5] (-3) = [3; 4; 5].
Proof. reflexivity. Qed.

Example del_prefix_zero : Py.del_prefix [1; 2; 3] (-0) = [1; 2; 3].
Proof. reflexivity. Qed.

Example timestamp_str_seconds :
  Pandas.timestamp_str (1585747800000 * 1000000) (-14400)
  = "2020-04-01 09:30:00-04:00"%string.
Proof. reflexivity. Qed.

Example timestamp_str_millis :
  Pandas.timestamp_str (1585747800123 * 1000000) (-14400)
  = "2020-04-01 09:30:00.123000-04:00"%string.
Proof. reflexivity. Qed.

Example timestamp_str_nanos :
  Pandas.timestamp_str (1585747800000 * 1000000 + 7) 19800
  = "2020-04-01 19:00:00.000000007+05:30"%string.
Proof. reflexivity. Qed.

Example to_string_one_row :
  Pandas.to_string ["2020-04-01 09:30:00-04:00"%string]
  = "0   2020-04-01 09:30:00-04:00"%string.
Proof. reflexivity. Qed.

Example parse_one_row :
  Dateutil.parse (Py.str_from_1 "0   2020-04-01 09:30:00.123000-04:00")
  = Ok (Datetime.mkdatetime (Calendar.mkdate 2020 4 1) 9 30 0 123000
          (Some (Datetime.tzoffset (-14400)))).
Proof. reflexivity. Qed.

Example demo_read_csv :
  Demo.read_csv Demo.aapl_raw "," = Ok Demo.aapl_frame.
Proof. vm_compute. reflexivity. Qed.

Example demo_two_rows_raise :
  fst (get_last_price Demo.world Demo.two_state) = Raise DateParseError.
Proof. vm_compute. reflexivity. Qed.

Example demo_run :
  column "price"
    (run Demo.world [Tick; Typed "AAPL"; Tick; Click; Tick; Tick] initial_state)
  = [VFloat (Demo.float_of_dec 25012 2); VFloat (Demo.float_of_dec 25012 2)].
Proof. vm_compute. reflexivity. Qed.

(* ===================================================================== *)
(** * Further properties of the callbacks *)
(* ===================================================================== *)

(** ** What the plot reads

    The line glyph and the hover tool of the figure name columns of the
    data source: [price_plot.line(x='time', y='price', source=data)] and
    the tooltips "@display_time" and "@price". *)

Module Plot.

Definition line_x : string := "time".
Definition line_y : string := "price".

Definition hover_tooltips : list (string * string) :=
  [("Time", "@display_time"); ("IEX Real-Time Price", "@price")].

(** the column a tooltip "@name" shows *)
Definition tooltip_field (spec : string) : option string :=
  match spec with
  | String "@" name => Some name
  | _ => None
  end.

Definition referenced_columns : list string :=
  line_x :: line_y :: omap (fun t => tooltip_field (snd t)) hover_tooltips.

End Plot.

(** ** Worlds with answers that make the fetch raise *)

Module Faulty.

(** a world whose server answers every request with the same body *)
Definition fixed (body : string) : World :=
  mkWorld (fun _ _ => Ok body) Demo.utcnow_us Demo.read_csv Demo.zone_offset
          (fun _ => Raise ValueError) (fun _ _ => Raise ValueError).

(** a world without a network *)
Definition offline : World :=
  mkWorld (fun _ _ => Raise ConnectionError) Demo.utcnow_us Demo.read_csv
          Demo.zone_offset
          (fun _ => Raise ValueError) (fun _ _ => Raise ValueError).

Definition no_time_body : string :=
  "symbol,price" ++ Pandas.newline ++ "AAPL,250.12" ++ Pandas.newline.


Definition header_only_body : string :=
  "symbol,price,size,time" ++ Pandas.newline.

(** the state after the user typed AAPL and clicked the button; it is the
    same in every world *)
Definition aapl_state : State :=
  run offline [Typed "AAPL"; Click] initial_state.

End Faulty.

(** the data source holds the three columns, all of one length *)
Definition synchronized (D : Bokeh.columns) : Prop :=
  dom D = dom empty_columns /\
  exists n, forall name L, D !! name = Some L -> length L = n.

Section Callbacks.

Variable W : World.

Lemma is_column_dom (name : string) :
  is_column name <-> name ∈ dom empty_columns.
Proof.
  unfold is_column, empty_columns. rewrite !dom_insert_L. set_solver.
Qed.

Lemma synchronized_empty_columns : synchronized empty_columns.
Proof.
  split; [reflexivity|]. exists 0%nat. intros name L H.
  now apply empty_columns_lookup in H as ->.
Qed.

Lemma synchronized_stream (q : pyval * pyval * pyval) (D D' : Bokeh.columns) :
  Bokeh.stream (new_data q) (Some 3600) D = Ok D' ->
  synchronized D -> synchronized D'.
Proof.
  intros Hs [Hd [n Hn]]. destruct (stream_dom _ _ _ _ Hs) as [Hd' _].
  split; [now rewrite Hd'|].
  exists (Nat.min (n + 1) 3600). intros name L' HL'.
  rewrite (stream_lookup _ _ _ _ name Hs) in HL'.
  destruct (D !! name) as [L|] eqn:E; [|discriminate].
  assert (Hc : is_column name).
  { apply is_column_dom. rewrite <- Hd. apply elem_of_dom. eauto. }
  rewrite (new_data_component name q Hc) in HL'. cbn in HL'.
  injection HL' as <-.
  rewrite del_prefix_rollover, length_lastn, length_app by lia.
  rewrite (Hn _ _ E). cbn. lia.
Qed.

Lemma synchronized_step (s : State) (i : input) :
  synchronized (data s) -> synchronized (data (step W s i)).
Proof.
  intros Hs. unfold step, handle. destruct i as [| |v].
  - destruct (update_price W s) as [[[]|e] s'] eqn:Hu; cbn [snd].
    + destruct (update_price_ok _ _ _ Hu) as (q & s1 & _ & Hst & _).
      exact (synchronized_stream _ _ _ Hst Hs).
    + destruct (update_price_raise _ _ _ _ Hu) as [-> _]. exact Hs.
  - exact synchronized_empty_columns.
  - exact Hs.
Qed.

Lemma synchronized_run (ins : list input) (s : State) :
  synchronized (data s) -> synchronized (data (run W ins s)).
Proof.
  revert s. induction ins as [|i ins IH]; intros s Hs; [exact Hs|].
  cbn. apply IH, synchronized_step, Hs.
Qed.

(** X1: in every reachable state the data source has exactly the columns
    time, display_time and price, and the three have the same length. *)
Theorem columns_synchronized (s : State) :
  reachable W s ->
  dom (data s) = {["time"; "display_time"; "price"]} /\
  length (column "display_time" s) = length (column "time" s) /\
  length (column "price" s) = length (column "time" s).
Proof.
  intros [ins ->].
  destruct (synchronized_run ins initial_state synchronized_empty_columns)
    as [Hd [n Hn]].
  assert (Hc : forall name, is_column name ->
            length (column name (run W ins initial_state)) = n).
  { intros name Hname. apply is_column_dom in Hname.
    rewrite <- Hd in Hname. apply elem_of_dom in Hname as [L HL].
    unfold column. rewrite HL. cbn. exact (Hn _ _ HL). }
  split; [rewrite Hd; reflexivity|].
  rewrite !Hc by (unfold is_column; auto). split; reflexivity.
Qed.

(** X2: in every reachable state, every column that the line glyph and
    the hover tool of the figure name is a column of the data source, as
    long as the x column of the line; and the data source has no column
    that the figure does not name. *)
Theorem plot_columns_exist (s : State) :
  reachable W s ->
  (forall c, c ∈ Plot.referenced_columns ->
     c ∈ dom (data s) /\
     length (column c s) = length (column Plot.line_x s)) /\
  (forall c, c ∈ dom (data s) -> c ∈ Plot.referenced_columns).
Proof.
  intros [ins ->].
  destruct (synchronized_run ins initial_state synchronized_empty_columns)
    as [Hd [n Hn]].
  assert (Hc : forall name, name ∈ dom empty_columns ->
            length (column name (run W ins initial_state)) = n).
  { intros name Hname.
    rewrite <- Hd in Hname. apply elem_of_dom in Hname as [L HL].
    unfold column. rewrite HL. cbn. exact (Hn _ _ HL). }
  assert (Hr : forall c, c ∈ Plot.referenced_columns <-> c ∈ dom empty_columns).
  { intros c. unfold empty_columns. rewrite !dom_insert_L.
    cbn. set_solver. }
  split.
  - intros c Hin. apply Hr in Hin. rewrite Hd. split; [exact Hin|].
    rewrite (Hc c Hin), (Hc Plot.line_x); [reflexivity|].
    apply Hr. cbn. set_solver.
  - intros c Hin. rewrite Hd in Hin. now apply Hr.
Qed.

Lemma update_price_selection (s : State) :
  TICKER (snd (update_price W s)) = TICKER s /\
  ticker_textbox_value (snd (update_price W s)) = ticker_textbox_value s /\
  price_plot_title_text (snd (update_price W s)) = price_plot_title_text s /\
  exists l, log (snd (update_price W s)) = log s ++ l.
Proof.
  rewrite update_price_unfold. unfold bind.
  pose proof (only_logs_new_quote W s) as (H1 & H2 & H3 & _ & Hl).
  destruct (new_quote W s) as [[q|e'] s1]; cbn [snd] in *; [|auto].
  unfold data_stream.
  destruct (Bokeh.stream _ _ _); cbn; auto.
Qed.

(** X3: a tick, whether it returns or raises, leaves the ticker, the
    text box and the title of the chart as they were, and takes nothing
    out of the log of requests. *)
Theorem tick_keeps_selection (s : State) :
  TICKER (snd (update_price W s)) = TICKER s /\
  ticker_textbox_value (snd (update_price W s)) = ticker_textbox_value s /\
  price_plot_title_text (snd (update_price W s)) = price_plot_title_text s /\
  exists l, log (snd (update_price W s)) = log s ++ l.
Proof. exact (update_price_selection s). Qed.

(** X4: a tick that raises leaves the data source as it was: nothing is
    appended and nothing is dropped. *)
Theorem raising_tick_keeps_buffer (s : State) (e : exn) :
  fst (update_price W s) = Raise e ->
  data (snd (update_price W s)) = data s.
Proof.
  intros H. destruct (update_price W s) as [r s'] eqn:Hu. cbn in H. subst r.
  cbn [snd]. now destruct (update_price_raise _ _ _ _ Hu) as [-> _].
Qed.

Lemma last_lastn_snoc {A} (n : nat) (L : list A) (x : A) :
  (0 < n)%nat -> last (Py.lastn n (L ++ [x])) = Some x.
Proof.
  intros Hn. unfold Py.lastn. rewrite length_app. cbn [length].
  rewrite skipn_app.
  replace (length L + 1 - n - length L)%nat with 0%nat by lia.
  cbn [drop]. apply last_snoc.
Qed.

(** X5: after a tick that returns, the last entry of each of the three
    columns is the component of the triple that the tick produced, so the
    newest observation is at the end of the buffer. *)
Theorem tick_appends_last (s s' : State) (name : string) :
  update_price W s = (Ok tt, s') ->
  is_column name ->
  exists q s1,
    new_quote W s = (Ok q, s1) /\
    last (column name s') = Some (component name q).
Proof.
  intros Hu Hn.
  destruct (update_price_column _ _ _ name Hu Hn) as (q & s1 & Hq & Hc).
  exists q, s1. split; [exact Hq|].
  rewrite Hc. apply last_lastn_snoc. lia.
Qed.

(** X6: a returning tick on a column with fewer than 3600 entries keeps
    every entry and puts the new one behind them. *)
Theorem tick_below_capacity_keeps_all (s s' : State) (name : string) :
  update_price W s = (Ok tt, s') ->
  is_column name ->
  (length (column name s) < 3600)%nat ->
  exists q s1,
    new_quote W s = (Ok q, s1) /\
    column name s' = column name s ++ [component name q].
Proof.
  intros Hu Hn Hlen.
  destruct (update_price_column _ _ _ name Hu Hn) as (q & s1 & Hq & Hc).
  exists q, s1. split; [exact Hq|].
  rewrite Hc. apply lastn_all. rewrite length_app. cbn. lia.
Qed.

(** X7: a returning tick on a column with exactly 3600 entries drops the
    first entry, keeps the other 3599 in order, and puts the new one
    behind them. *)
Theorem tick_at_capacity_drops_first (s s' : State) (name : string) :
  update_price W s = (Ok tt, s') ->
  is_column name ->
  length (column name s) = 3600%nat ->
  exists q s1,
    new_quote W s = (Ok q, s1) /\
    column name s' = drop 1 (column name s) ++ [component name q] /\
    length (column name s') = 3600%nat.
Proof.
  intros Hu Hn Hlen.
  destruct (update_price_column _ _ _ name Hu Hn) as (q & s1 & Hq & Hc).
  exists q, s1. split; [exact Hq|].
  rewrite Hc. unfold Py.lastn. rewrite length_app, Hlen. cbn [length].
  replace (3600 + 1 - 3600)%nat with 1%nat by lia.
  rewrite skipn_app, Hlen. cbn [Nat.sub drop].
  split; [reflexivity|].
  rewrite length_app, length_drop, Hlen. reflexivity.
Qed.

(** ** Runs of the event loop *)

(** the number of ticks among the inputs *)
Fixpoint count_ticks (ins : list input) : nat :=
  match ins with
  | [] => 0
  | Tick :: r => S (count_ticks r)
  | _ :: r => count_ticks r
  end.

Definition is_get (e : event) : bool :=
  match e with EvGet _ => true | EvNow => false end.

Lemma placeholder_step (s : State) :
  TICKER s = EmptyString -> synchronized (data s) ->
  let s' := snd (update_price W s) in
  fst (update_price W s) = Ok tt /\
  TICKER s' = EmptyString /\
  log s' = log s ++ [EvNow; EvNow] /\
  forall name, is_column name ->
    length (column name s') = Nat.min (length (column name s) + 1) 3600.
Proof.
  intros Ht [Hd _] s'.
  pose proof (new_quote_placeholder W s Ht) as Hq.
  destruct (stream_new_data_ok
              (VDatetime (astimezone W (utcnow_us W (length (log s))) set_timezone),
               VDatetime (astimezone W (utcnow_us W (S (length (log s)))) set_timezone),
               VFloat 0%float) (data s) Hd) as [D HD].
  assert (Hu : update_price W s =
               (Ok tt, mkState (TICKER s) (ticker_textbox_value s)
                               (price_plot_title_text s) D
                               (log s ++ [EvNow; EvNow]))).
  { rewrite update_price_unfold. unfold bind. rewrite Hq.
    unfold data_stream. cbn [data logged]. rewrite HD.
    cbn. now rewrite <- app_assoc. }
  subst s'. split; [now rewrite Hu|].
  split; [now rewrite Hu|]. split; [now rewrite Hu|].
  intros name Hn.
  destruct (update_price_column _ _ _ name Hu Hn) as (q & s1 & _ & Hc).
  rewrite Hu in *. cbn [snd]. rewrite Hc, length_lastn, length_app. cbn. lia.
Qed.

Lemma synchronized_length_le (s : State) (name : string) :
  bounded (data s) -> (length (column name s) <= 3600)%nat.
Proof.
  intros Hb. unfold column. destruct (data s !! name) as [L|] eqn:E.
  - exact (Hb _ _ E).
  - cbn. lia.
Qed.

Lemma run_cons (i : input) (ins : list input) (s : State) :
  run W (i :: ins) s = run W ins (step W s i).
Proof. reflexivity. Qed.

Lemma idle_run (ins : list input) (s : State) :
  Click ∉ ins ->
  TICKER s = EmptyString -> synchronized (data s) ->
  TICKER (run W ins s) = EmptyString /\
  (exists l, log (run W ins s) = log s ++ l /\
             Forall (fun e => is_get e = false) l) /\
  forall name, is_column name ->
    Nat.min (length (column name (run W ins s))) 3600 =
    Nat.min (length (column name s) + count_ticks ins) 3600.
Proof.
  revert s. induction ins as [|i ins IH]; intros s Hc Ht Hs.
  - cbn. split; [exact Ht|]. split.
    + exists []. split; [now rewrite app_nil_r|constructor].
    + intros name _. now rewrite Nat.add_0_r.
  - assert (Hc' : Click ∉ ins) by (intros H; apply Hc; now right).
    destruct i as [| |v].
    + pose proof (placeholder_step s Ht Hs) as (_ & Ht1 & Hl1 & Hn1).
      pose proof (synchronized_step s Tick Hs) as Hs1.
      destruct (IH (step W s Tick) Hc' Ht1 Hs1) as (Ht2 & (l & Hl & HF) & Hn2).
      rewrite run_cons. split; [exact Ht2|]. split.
      * exists ([EvNow; EvNow] ++ l). split.
        -- rewrite Hl. unfold step, handle. rewrite Hl1.
           now rewrite <- app_assoc.
        -- apply Forall_app. split; [repeat constructor|exact HF].
      * intros name Hname. rewrite (Hn2 name Hname).
        unfold step, handle. rewrite (Hn1 name Hname).
        cbn [count_ticks]. lia.
    + exfalso. apply Hc. now left.
    + rewrite run_cons. apply (IH (step W s (Typed v)) Hc' Ht Hs).
Qed.


Lemma update_price_log_fetch (s : State) :
  TICKER s <> EmptyString ->
  log (snd (update_price W s)) = log s ++ [EvGet (request_for (TICKER s))].
Proof.
  intros Ht. rewrite update_price_unfold. unfold bind.
  rewrite new_quote_fetch, get_last_price_eq by exact Ht.
  destruct (result_bind _ _) as [q|e]; [|reflexivity].
  unfold data_stream. destruct (Bokeh.stream _ _ _); reflexivity.
Qed.

(** X9: with a ticker that is not the empty string, [k] ticks in a row
    send exactly [k] requests, each for that ticker, whether the ticks
    return or raise: a tick that fails is not tried again, and no tick is
    answered from an earlier answer. *)
Theorem ticks_send_one_request_each (k : nat) (s : State) :
  TICKER s <> EmptyString ->
  log (run W (replicate k Tick) s) =
  log s ++ replicate k (EvGet (request_for (TICKER s))).
Proof.
  revert s. induction k as [|k IH]; intros s Ht.
  - cbn. now rewrite app_nil_r.
  - cbn [replicate]. rewrite run_cons.
    destruct (update_price_selection s) as (Hs & _).
    unfold step, handle. rewrite IH by (rewrite Hs; exact Ht).
    rewrite Hs, update_price_log_fetch by exact Ht.
    now rewrite <- app_assoc.
Qed.

Lemma ticks_ticker (k : nat) (s s' : State) :
  ticks W k s = (Ok tt, s') -> TICKER s' = TICKER s.
Proof.
  revert s. induction k as [|k IH]; intros s Hk.
  - cbn in Hk. now injection Hk as <-.
  - rewrite ticks_succ in Hk.
    destruct (update_price W s) as [[[]|e] s1] eqn:Hu; [|discriminate].
    rewrite (IH _ Hk).
    destruct (update_price_selection s) as (Hs & _).
    now rewrite Hu in Hs.
Qed.

(** X10: whatever the state, after the user types [v] and clicks the
    button, [k] ticks that all return leave the ticker [v] and in each
    column exactly the last 3600 of the [k] components fetched since the
    click, [min k 3600] of them: nothing from before the click is left. *)
Theorem click_then_ticks (s s' : State) (v name : string) (k : nat) :
  ticks W k (run W [Typed v; Click] s) = (Ok tt, s') ->
  is_column name ->
  TICKER s' = v /\
  length (column name s') = Nat.min k 3600 /\
  column name s' =
    Py.lastn 3600 (component name <$> quotes W k (run W [Typed v; Click] s)).
Proof.
  intros Hk Hn.
  assert (Hd : data (run W [Typed v; Click] s) = empty_columns) by reflexivity.
  pose proof (column_empty_columns name _ Hd) as Hc.
  destruct (ticks_columns W k name Hn _ _ Hk) as [Hl Hcol].
  { rewrite Hc. cbn. lia. }
  rewrite Hc in Hcol. cbn [app] in Hcol.
  split; [now rewrite (ticks_ticker _ _ _ Hk)|].
  split; [|exact Hcol].
  now rewrite Hcol, length_lastn, length_fmap, Hl.
Qed.

(** ** More on the fetch *)

(** X11: a fetch changes nothing of the program but the log, to which it
    adds its one request; and what it returns or raises depends on the
    state only through the ticker and the number of events so far, not on
    the buffer, the title or the text box. *)
Theorem fetch_is_stateless (s1 s2 : State) :
  TICKER s1 = TICKER s2 ->
  length (log s1) = length (log s2) ->
  fst (get_last_price W s1) = fst (get_last_price W s2) /\
  snd (get_last_price W s1) = logged s1 (EvGet (request_for (TICKER s1))) /\
  data (snd (get_last_price W s1)) = data s1.
Proof.
  intros Ht Hl. rewrite !get_last_price_eq. cbn [fst snd].
  rewrite Ht, Hl. repeat split; reflexivity.
Qed.

(** X12: when the answer has no column named time, the fetch raises
    KeyError for "time". *)
Theorem fetch_missing_time_raises (s : State) (raw : string)
        (df : Pandas.DataFrame) :
  http_get W (length (log s)) (request_for (TICKER s)) = Ok raw ->
  read_csv W raw "," = Ok df ->
  df !! "time" = None ->
  fst (get_last_price W s) = Raise (KeyError "time").
Proof.
  intros Hh Hr Ht. rewrite get_last_price_eq. cbn [fst].
  rewrite Hh. cbn [result_bind]. rewrite Hr. cbn [result_bind].
  unfold quote_of_frame, Pandas.getitem. now rewrite Ht.
Qed.


(** X14: when the request fails, or the body of the answer cannot be read
    as CSV, a tick with a ticker that is not the empty string raises that
    very exception and leaves the data source as it was. *)
Theorem fetch_error_propagates (s : State) (e : exn) :
  TICKER s <> EmptyString ->
  http_get W (length (log s)) (request_for (TICKER s)) = Raise e \/
  (exists raw,
     http_get W (length (log s)) (request_for (TICKER s)) = Ok raw /\
     read_csv W raw "," = Raise e) ->
  fst (get_last_price W s) = Raise e /\
  fst (update_price W s) = Raise e /\
  data (snd (update_price W s)) = data s.
Proof.
  intros Ht He.
  assert (Hg : fst (get_last_price W s) = Raise e).
  { rewrite get_last_price_eq. cbn [fst].
    destruct He as [-> | (raw & -> & Hr)]; [reflexivity|].
    cbn [result_bind]. now rewrite Hr. }
  split; [exact Hg|].
  rewrite update_price_unfold. unfold bind.
  rewrite new_quote_fetch by exact Ht.
  pose proof (only_logs_get_last_price W s) as (_ & _ & _ & Hd & _).
  destruct (get_last_price W s) as [r s1]. cbn in Hg. subst r.
  cbn in *. auto.
Qed.

(** X15: when the answer has a time column but no row (a header only),
    the fetch raises at the parse of the time: the text of the empty
    column without its first character is not a date. *)
Theorem fetch_empty_frame_raises (s : State) (raw : string)
        (df : Pandas.DataFrame) (c : Pandas.column) :
  http_get W (length (log s)) (request_for (TICKER s)) = Ok raw ->
  read_csv W raw "," = Ok df ->
  df !! "time" = Some c ->
  Pandas.col_len c = 0%nat ->
  fst (get_last_price W s) = Raise DateParseError.
Proof.
  intros Hh Hr Ht Hc. rewrite get_last_price_eq. cbn [fst].
  rewrite Hh. cbn [result_bind]. rewrite Hr. cbn [result_bind].
  unfold quote_of_frame, Pandas.getitem. rewrite Ht. cbn [result_bind].
  assert (Hts : to_datetime_ms W c = Ok (Pandas.Datetime64 [])).
  { unfold to_datetime_ms. rewrite Hc.
    destruct c as [l|l|l|l|l|z l]; cbn in Hc;
      try (destruct l; [|discriminate Hc]); reflexivity. }
  rewrite Hts. reflexivity.
Qed.


End Callbacks.

(* ===================================================================== *)
(** * The further properties at work *)
(* ===================================================================== *)


Lemma reachable_aapl_state_2 : reachable Demo.world Demo.aapl_state_2.
Proof. exists [Typed "AAPL"; Click; Tick; Tick]. reflexivity. Qed.

Lemma columns_synchronized_witness :
  dom (data Demo.aapl_state_2) = {["time"; "display_time"; "price"]} /\
  length (column "display_time" Demo.aapl_state_2)
    = length (column "time" Demo.aapl_state_2) /\
  length (column "price" Demo.aapl_state_2)
    = length (column "time" Demo.aapl_state_2).
Proof.
  apply (columns_synchronized Demo.world). exact reachable_aapl_state_2.
Defined.

Lemma plot_columns_exist_witness :
  (forall c, c ∈ Plot.referenced_columns ->
     c ∈ dom (data Demo.aapl_state_2) /\
     length (column c Demo.aapl_state_2)
       = length (column Plot.line_x Demo.aapl_state_2)) /\
  (forall c, c ∈ dom (data Demo.aapl_state_2) -> c ∈ Plot.referenced_columns).
Proof.
  apply (plot_columns_exist Demo.world). exact reachable_aapl_state_2.
Defined.

Lemma raising_tick_keeps_buffer_witness :
  data (snd (update_price Demo.world Demo.two_state)) = data Demo.two_state.
Proof.
  apply (raising_tick_keeps_buffer Demo.world Demo.two_state DateParseError).
  vm_compute. reflexivity.
Defined.

Lemma tick_appends_last_witness :
  exists q s1,
    new_quote Demo.world Demo.aapl_state = (Ok q, s1) /\
    last (column "price" (snd (update_price Demo.world Demo.aapl_state)))
      = Some (component "price" q).
Proof.
  apply (tick_appends_last Demo.world Demo.aapl_state).
  - vm_compute. reflexivity.
  - right. right. reflexivity.
Defined.

Lemma tick_below_capacity_keeps_all_witness :
  exists q s1,
    new_quote Demo.world Demo.aapl_state_2 = (Ok q, s1) /\
    column "time" (snd (update_price Demo.world Demo.aapl_state_2))
      = column "time" Demo.aapl_state_2 ++ [component "time" q].
Proof.
  apply (tick_below_capacity_keeps_all Demo.world Demo.aapl_state_2).
  - vm_compute. reflexivity.
  - left. reflexivity.
  - vm_compute. lia.
Defined.

Lemma not_click_replicate_tick (k : nat) : Click ∉ replicate k Tick.
Proof. intros H. apply elem_of_replicate in H as [H _]. discriminate. Qed.

Lemma count_ticks_replicate (k : nat) : count_ticks (replicate k Tick) = k.
Proof. induction k as [|k IH]; [reflexivity|]. cbn. now rewrite IH. Qed.

(** the state after 3600 ticks without a ticker: a full buffer of
    placeholders *)
Lemma full_idle_state (W : World) (name : string) :
  is_column name ->
  let s := run W (replicate 3600 Tick) initial_state in
  TICKER s = EmptyString /\ synchronized (data s) /\
  length (column name s) = 3600%nat.
Proof.
  intros Hn s.
  destruct (idle_run W (replicate 3600 Tick) initial_state
              (not_click_replicate_tick 3600) eq_refl
              synchronized_empty_columns) as (Ht & _ & Hlen).
  split; [exact Ht|]. split.
  - apply synchronized_run, synchronized_empty_columns.
  - specialize (Hlen name Hn).
    rewrite count_ticks_replicate in Hlen.
    rewrite (column_empty_columns name initial_state eq_refl) in Hlen.
    pose proof (synchronized_length_le s name
                  (bounded_run W _ initial_state bounded_empty_columns)).
    subst s. cbn [length Nat.add] in Hlen. lia.
Qed.

Lemma tick_at_capacity_drops_first_witness :
  let s := run Demo.world (replicate 3600 Tick) initial_state in
  exists q s1,
    new_quote Demo.world s = (Ok q, s1) /\
    column "time" (snd (update_price Demo.world s))
      = drop 1 (column "time" s) ++ [component "time" q] /\
    length (column "time" (snd (update_price Demo.world s))) = 3600%nat.
Proof.
  intros s.
  destruct (full_idle_state Demo.world "time" (or_introl eq_refl))
    as (Ht & Hs & Hlen).
  fold s in Ht, Hs, Hlen.
  apply (tick_at_capacity_drops_first Demo.world s).
  - destruct (placeholder_step Demo.world s Ht Hs) as (Hr & _).
    destruct (update_price Demo.world s) as [r s']. cbn in Hr. now subst r.
  - left. reflexivity.
  - exact Hlen.
Defined.


Lemma ticks_send_one_request_each_witness :
  log (run Demo.world (replicate 3 Tick) Demo.aapl_state) =
  log Demo.aapl_state
  ++ replicate 3 (EvGet (request_for (TICKER Demo.aapl_state))).
Proof.
  apply (ticks_send_one_request_each Demo.world 3 Demo.aapl_state).
  discriminate.
Defined.

Lemma click_then_ticks_witness :
  let s0 := run Demo.world [Typed "MSFT"; Click] Demo.aapl_state_2 in
  TICKER (snd (ticks Demo.world 2 s0)) = "MSFT" /\
  length (column "time" (snd (ticks Demo.world 2 s0))) = Nat.min 2 3600 /\
  column "time" (snd (ticks Demo.world 2 s0)) =
    Py.lastn 3600 (component "time" <$> quotes Demo.world 2 s0).
Proof.
  intros s0.
  apply (click_then_ticks Demo.world Demo.aapl_state_2 _ "MSFT" "time" 2).
  - vm_compute. reflexivity.
  - left. reflexivity.
Defined.

(** two states with the ticker AAPL and two events behind them: one with
    two entries in the buffer, one with none *)
Lemma fetch_is_stateless_witness :
  let s2 := run Demo.world [Tick; Typed "AAPL"; Click] initial_state in
  fst (get_last_price Demo.world Demo.aapl_state_2)
    = fst (get_last_price Demo.world s2) /\
  snd (get_last_price Demo.world Demo.aapl_state_2)
    = logged Demo.aapl_state_2 (EvGet (request_for (TICKER Demo.aapl_state_2))) /\
  data (snd (get_last_price Demo.world Demo.aapl_state_2))
    = data Demo.aapl_state_2.
Proof.
  intros s2. apply (fetch_is_stateless Demo.world Demo.aapl_state_2 s2).
  - vm_compute. reflexivity.
  - vm_compute. reflexivity.
Defined.

Lemma fetch_missing_time_raises_witness :
  fst (get_last_price (Faulty.fixed Faulty.no_time_body) Faulty.aapl_state)
  = Raise (KeyError "time").
Proof.
  eapply (fetch_missing_time_raises (Faulty.fixed Faulty.no_time_body)
            Faulty.aapl_state Faulty.no_time_body).
  - reflexivity.
  - vm_compute. reflexivity.
  - vm_compute. reflexivity.
Defined.


Lemma fetch_error_propagates_witness :
  fst (get_last_price Faulty.offline Faulty.aapl_state) = Raise ConnectionError /\
  fst (update_price Faulty.offline Faulty.aapl_state) = Raise ConnectionError /\
  data (snd (update_price Faulty.offline Faulty.aapl_state))
    = data Faulty.aapl_state.
Proof.
  apply (fetch_error_propagates Faulty.offline Faulty.aapl_state).
  - discriminate.
  - left. reflexivity.
Defined.

Lemma fetch_empty_frame_raises_witness :
  fst (get_last_price (Faulty.fixed Faulty.header_only_body) Faulty.aapl_state)
  = Raise DateParseError.
Proof.
  eapply (fetch_empty_frame_raises (Faulty.fixed Faulty.header_only_body)
            Faulty.aapl_state Faulty.header_only_body _ (Pandas.Int64 [])).
  - reflexivity.
  - vm_compute. reflexivity.
  - vm_compute. reflexivity.
  - reflexivity.
Defined.

